(** * modular_cloud_matcher: the cloud callback of the ICP tracker node

    A shallow embedding of [CloudMatcher] from
    [modular_cloud_matcher/src/modular_cloud_matcher.cpp]: its constructor
    and the subscriber callback [gotCloud].  Every action the callback
    performs on the outside world (log lines, calls into the ICP object,
    publications, the tf broadcast) is recorded, in program order, in a
    list of [Effect]s returned next to the new object state. *)

From Stdlib Require Import ZArith Floats.SpecFloat.
From stdpp Require Import base list strings gmap.

Local Open Scope Z_scope.

(** ** C++ [unsigned] arithmetic *)

Module UInt32.

Definition modulus : Z := 2 ^ 32.

(** Conversion of an [int] to [unsigned]. *)
Definition of_int (v : Z) : Z := v mod modulus.

(** [++u] on an [unsigned]. *)
Definition incr (u : Z) : Z := (u + 1) mod modulus.

Definition in_range (u : Z) : Prop := 0 <= u < modulus.

End UInt32.

(** ** Scalars

    Coordinates are IEEE-754 numbers.  The conversions from [float] to
    [double] that the callback performs are exact and map NaN to NaN, so
    one type serves for both widths. *)

Definition Scalar : Type := spec_float.

Definition isnan (s : Scalar) : bool :=
  match s with
  | S754_nan => true
  | _ => false
  end.

Definition isfinite (s : Scalar) : bool :=
  match s with
  | S754_zero _ | S754_finite _ _ _ => true
  | S754_infinity _ | S754_nan => false
  end.

(** [numeric_limits<float>::quiet_NaN()] *)
Definition quiet_NaN : Scalar := S754_nan.

(** The literal [1] stored into a [float] matrix: 2^23 * 2^-23. *)
Definition Scalar_one : Scalar := S754_finite false 8388608 (-23).

(** Value of a default-constructed numeric message field. *)
Definition Scalar_zero : Scalar := S754_zero false.

(** ** Messages and library value types *)

Module ros.
Record Time := { sec : Z; nsec : Z }.
Definition Time_zero : Time := {| sec := 0; nsec := 0 |}.
Record Header := { stamp : Time; frame_id : string }.
End ros.

Module pcl.
Record PointXYZ := { x : Scalar; y : Scalar; z : Scalar }.
End pcl.

Module sensor_msgs.
(** The cloud message, seen through [pcl::fromROSMsg]: its header stamp
    and the decoded sequence of points. *)
Record PointCloud2 := { stamp : ros.Time; points : list pcl.PointXYZ }.
End sensor_msgs.

Module geometry_msgs.
Record Point := { x : Scalar; y : Scalar; z : Scalar }.
Record Quaternion := { qx : Scalar; qy : Scalar; qz : Scalar; qw : Scalar }.
Record Pose := { position : Point; orientation : Quaternion }.
(** [PoseWithCovarianceStamped]; the covariance is never written by the
    callback and keeps its default value, so it is not represented. *)
Record PoseWithCovarianceStamped := { pwc_header : ros.Header; pwc_pose : Pose }.
Record PoseStamped := { header : ros.Header; pose : Pose }.
End geometry_msgs.

Module nav_msgs.
Record Path := { frame_id : string; poses : list geometry_msgs.PoseStamped }.
End nav_msgs.

Module tf.
Record Transform := { rotation : geometry_msgs.Quaternion; origin : geometry_msgs.Point }.
Record StampedTransform :=
  { transform : Transform; stamp : ros.Time; frame_id : string; child_frame_id : string }.
End tf.

(** ** Point matcher data points *)

(** An Eigen matrix in column-major order: the list of its columns. *)
Definition Features : Type := list (list Scalar).

(** [DP::Features(rows, cols)]: storage of the given shape.  Eigen leaves
    the coefficients uninitialised; every cell is overwritten before it is
    read, and zero stands for the initial content. *)
Definition Features_new (rows cols : nat) : Features :=
  replicate cols (replicate rows Scalar_zero).

(** [m.coeffRef(r, c) = v].  Eigen performs no bounds check; here a write
    outside the matrix leaves it unchanged.  The callback never does so:
    by [buildDP_features] none of its writes is lost. *)
Definition coeffRef_set (r c : nat) (v : Scalar) (m : Features) : Features :=
  alter (fun col => <[r := v]> col) c m.

Definition Features_cols (m : Features) : nat := length m.

Definition Label : Type := (string * nat)%type.

Record DP := { features : Features; featureLabels : list Label }.

(** Lines 86-90. *)
Definition labels : list Label :=
  [("x"%string, 1%nat); ("y"%string, 1%nat); ("z"%string, 1%nat); ("pad"%string, 1%nat)].

(** ** The two scans over the cloud *)

(** Lines 96-101: [goodCount] after the counting loop, started at [acc]. *)
Fixpoint countGood (pts : list pcl.PointXYZ) (acc : nat) : nat :=
  match pts with
  | [] => acc
  | p :: rest =>
      if negb (isnan (pcl.x p)) then countGood rest (S acc) else countGood rest acc
  end.

(** Lines 127-138: the copy loop, with the running column index [dIndex]. *)
Fixpoint fillFeatures (pts : list pcl.PointXYZ) (dIndex : nat) (m : Features) : Features :=
  match pts with
  | [] => m
  | p :: rest =>
      if negb (isnan (pcl.x p)) then
        let m0 := coeffRef_set 0 dIndex (pcl.x p) m in
        let m1 := coeffRef_set 1 dIndex (pcl.y p) m0 in
        let m2 := coeffRef_set 2 dIndex (pcl.z p) m1 in
        let m3 := coeffRef_set 3 dIndex Scalar_one m2 in
        fillFeatures rest (S dIndex) m3
      else fillFeatures rest dIndex m
  end.

(** Lines 96-138 on the non-empty path: the data points handed to ICP. *)
Definition buildDP (pts : list pcl.PointXYZ) : DP :=
  let goodCount := countGood pts 0 in
  {| features := fillFeatures pts 0 (Features_new 4 goodCount);
     featureLabels := labels |}.

(** The test of lines 99 and 130, and the column written for a point. *)
Definition good (p : pcl.PointXYZ) : bool := negb (isnan (pcl.x p)).

Definition column (p : pcl.PointXYZ) : list Scalar :=
  [pcl.x p; pcl.y p; pcl.z p; Scalar_one].

(** The reading of validity in the design text: all three coordinates
    finite. *)
Definition all_finite (p : pcl.PointXYZ) : bool :=
  isfinite (pcl.x p) && isfinite (pcl.y p) && isfinite (pcl.z p).

(** ** The ratio of good points, in binary64 *)

(** [(double)n] for a [size_t]: the nearest binary64 number, ties to
    even. *)
Definition b64_of_size (n : nat) : Scalar := binary_normalize 53 1024 (Z.of_nat n) 0 false.

Definition b64_hundred : Scalar := S754_finite false 7036874417766400 (-46).

(** Line 141: [(double)goodCount / (double)cloud.points.size()]. *)
Definition imageRatio (goodCount total : nat) : Scalar :=
  SFdiv 53 1024 (b64_of_size goodCount) (b64_of_size total).

(** Line 146: [100 - imageRatio*100.0]. *)
Definition missingPercent (imageRatio : Scalar) : Scalar :=
  SFsub 53 1024 b64_hundred (SFmul 53 1024 imageRatio b64_hundred).

(** ** Effects of the callback *)

Inductive LogLine :=
| NoGoodPoints                                      (* ROS_ERROR, line 104 *)
| GotPoints (total goodCount : nat)                 (* ROS_INFO, line 139 *)
| PartialImage (missing : Scalar) (received : nat)   (* ROS_ERROR, line 146 *)
| MatchRatio (ratio : Scalar)                       (* ROS_INFO, line 155 *)
| FailedToConverge (what : string)                  (* ROS_WARN, line 160 *)
| FailureResettingTracker                           (* ROS_WARN, line 188 *)
| KeyframeCreatedAt (ratio : Scalar).               (* ROS_WARN, line 218 *)

Inductive Effect :=
| Log (line : LogLine)
| IcpCall (dp : DP)                                         (* icp(dp) *)
| IcpResetTracking (dp : DP)                                (* icp.resetTracking(dp) *)
| PosePublish (pose : geometry_msgs.PoseWithCovarianceStamped) (* posePub.publish *)
| PathPublish (path : nav_msgs.Path)                        (* pathPub.publish *)
| SendTransform (t : tf.StampedTransform).                  (* br.sendTransform *)

Definition is_IcpCall (e : Effect) : bool :=
  match e with IcpCall _ => true | _ => false end.
Definition is_IcpResetTracking (e : Effect) : bool :=
  match e with IcpResetTracking _ => true | _ => false end.
Definition is_PosePublish (e : Effect) : bool :=
  match e with PosePublish _ => true | _ => false end.
Definition is_PathPublish (e : Effect) : bool :=
  match e with PathPublish _ => true | _ => false end.
Definition is_SendTransform (e : Effect) : bool :=
  match e with SendTransform _ => true | _ => false end.
Definition is_PartialImage (e : Effect) : bool :=
  match e with Log (PartialImage _ _) => true | _ => false end.
(** Everything but a log line: what the node sends out or asks of ICP. *)
Definition is_Log (e : Effect) : bool :=
  match e with Log _ => true | _ => false end.

Definition occurrences (f : Effect -> bool) (trace : list Effect) : nat :=
  length (List.filter f trace).

(** ** The two collaborators *)

(** The operations of Eigen's transformation matrix ([TP]) that the node
    relies on, directly or through the ICP object. *)
Class TransformationParameters (TP : Type) := {
  (** [Matrix::Identity(4, 4)] *)
  TP_identity : TP;
  (** the matrix product *)
  TP_compose : TP -> TP -> TP;
  (** [Vector3(t.block(0,3,3,1))] *)
  TP_translation : TP -> geometry_msgs.Point;
  (** [Eigen::eigen2_Quaternion<Scalar>(Matrix3(t.block(0,0,3,3)))] *)
  TP_quaternion : TP -> geometry_msgs.Quaternion;
}.

(** How a call [icp(dp)] ends: it returns, or it throws
    [MSA::ConvergenceError]. *)
Inductive CallStatus :=
| Returned
| ConvergenceError (what : string).

(** The members of [MSA::ICPSequence] used by the callback, over the
    state [ICP] of the object.  [icp(dp)] receives the cloud by reference
    and may change the ICP state and the cloud whether it returns or
    throws, hence the triple. *)
Class ICPSequence (TP ICP : Type) := {
  icp_call : ICP -> DP -> ICP * DP * CallStatus;
  getWeightedPointUsedRatio : ICP -> Scalar;
  getDeltaTransform : ICP -> TP;
  getTransform : ICP -> TP;
  keyFrameCreatedAtLastCall : ICP -> bool;
  resetTracking : ICP -> DP -> ICP;
}.

(** ** The node *)

(** Lines 107-119 and 192-198: the pose whose seven components are NaN. *)
Definition nanPose (stamp : ros.Time) : geometry_msgs.PoseWithCovarianceStamped :=
  {| geometry_msgs.pwc_header := {| ros.stamp := stamp; ros.frame_id := "" |};
     geometry_msgs.pwc_pose :=
       {| geometry_msgs.position :=
            {| geometry_msgs.x := quiet_NaN; geometry_msgs.y := quiet_NaN;
               geometry_msgs.z := quiet_NaN |};
          geometry_msgs.orientation :=
            {| geometry_msgs.qx := quiet_NaN; geometry_msgs.qy := quiet_NaN;
               geometry_msgs.qz := quiet_NaN; geometry_msgs.qw := quiet_NaN |} |} |}.

Section Node.

Context {TP ICP : Type}.
Context {EigenTP : TransformationParameters TP}.
Context {Icp : ICPSequence TP ICP}.

Record CloudMatcher := {
  icp : ICP;
  sendDeltaPoseMessage : bool;
  fixedFrame : string;
  sensorFrame : string;
  startupDropCount : Z;     (* const unsigned *)
  dropCount : Z;            (* unsigned *)
  path : nav_msgs.Path;
}.

(** Lines 54-75.  [icp0] is the ICP object after [icp(3, statFilePrefix)]
    and [populateParameters(icp)]; the three parameters are the values
    [getParam] returned (the stored value or the default).
    [startupDropCount] is read as an [int] and stored in an
    [unsigned]. *)
Definition CloudMatcher_new (icp0 : ICP) (sendDeltaPoseMessage : bool)
    (fixedFrameParam sensorFrameParam : string) (startupDropCountParam : Z)
    : CloudMatcher :=
  {| icp := icp0;
     sendDeltaPoseMessage := sendDeltaPoseMessage;
     fixedFrame := fixedFrameParam;
     sensorFrame := sensorFrameParam;
     startupDropCount := UInt32.of_int startupDropCountParam;
     dropCount := 0;
     path := {| nav_msgs.frame_id := fixedFrameParam; nav_msgs.poses := [] |} |}.

(** Lines 166-184: the delta pose of a successful call. *)
Definition deltaPose (stamp : ros.Time) (dTransform : TP)
    : geometry_msgs.PoseWithCovarianceStamped :=
  {| geometry_msgs.pwc_header := {| ros.stamp := stamp; ros.frame_id := "" |};
     geometry_msgs.pwc_pose :=
       {| geometry_msgs.position := TP_translation dTransform;
          geometry_msgs.orientation := TP_quaternion dTransform |} |}.

(** Lines 205-214. *)
Definition tfTransform (globalTransform : TP) : tf.Transform :=
  {| tf.rotation := TP_quaternion globalTransform;
     tf.origin := TP_translation globalTransform |}.

(** Lines 219-227; the stamp of this pose is left at its default. *)
Definition keyframePose (sensorFrame : string) (transform : tf.Transform)
    : geometry_msgs.PoseStamped :=
  {| geometry_msgs.header := {| ros.stamp := ros.Time_zero; ros.frame_id := sensorFrame |};
     geometry_msgs.pose :=
       {| geometry_msgs.position := tf.origin transform;
          geometry_msgs.orientation := tf.rotation transform |} |}.

(** Line 232. *)
Definition stampedTransform (self : CloudMatcher) (stamp : ros.Time)
    (transform : tf.Transform) : tf.StampedTransform :=
  {| tf.transform := transform; tf.stamp := stamp;
     tf.frame_id := fixedFrame self; tf.child_frame_id := sensorFrame self |}.

(** Lines 102-124: no good point in the cloud. *)
Definition emptyCloud (self : CloudMatcher) (stamp : ros.Time) : list Effect :=
  Log NoGoodPoints ::
  (if sendDeltaPoseMessage self then [PosePublish (nanPose stamp)] else []).

(** Lines 139-148. *)
Definition reportCounts (total goodCount : nat) : list Effect :=
  Log (GotPoints total goodCount) ::
  (let ratio := imageRatio goodCount total in
   if (Z.of_nat goodCount <? 10000)%Z
   then [Log (PartialImage (missingPercent ratio) goodCount)]
   else []).

(** Lines 163-201: the delta pose message; gives the ICP state after it. *)
Definition sendDeltaPose (self : CloudMatcher) (stamp : ros.Time)
    (icp1 : ICP) (dp1 : DP) (icpWasSuccess : bool) : ICP * list Effect :=
  if sendDeltaPoseMessage self then
    let dTransform := getDeltaTransform icp1 in
    if icpWasSuccess then
      (icp1, [PosePublish (deltaPose stamp dTransform)])
    else
      (resetTracking icp1 dp1,
       [Log FailureResettingTracker; IcpResetTracking dp1; PosePublish (nanPose stamp)])
  else (icp1, []).

(** Lines 216-230: the path, extended when ICP created a key frame. *)
Definition recordKeyframe (self : CloudMatcher) (icp2 : ICP)
    (transform : tf.Transform) : nav_msgs.Path * list Effect :=
  if keyFrameCreatedAtLastCall icp2 then
    let path' :=
      {| nav_msgs.frame_id := nav_msgs.frame_id (path self);
         nav_msgs.poses :=
           nav_msgs.poses (path self) ++ [keyframePose (sensorFrame self) transform] |} in
    (path', [Log (KeyframeCreatedAt (getWeightedPointUsedRatio icp2)); PathPublish path'])
  else (path self, []).

Definition set_state (self : CloudMatcher) (icp' : ICP) (path' : nav_msgs.Path)
    : CloudMatcher :=
  {| icp := icp'; sendDeltaPoseMessage := sendDeltaPoseMessage self;
     fixedFrame := fixedFrame self; sensorFrame := sensorFrame self;
     startupDropCount := startupDropCount self; dropCount := dropCount self;
     path := path' |}.

Definition set_dropCount (self : CloudMatcher) (d : Z) : CloudMatcher :=
  {| icp := icp self; sendDeltaPoseMessage := sendDeltaPoseMessage self;
     fixedFrame := fixedFrame self; sensorFrame := sensorFrame self;
     startupDropCount := startupDropCount self; dropCount := d;
     path := path self |}.

(** Lines 85-232: the callback once the warm-up test has let the cloud
    through. *)
Definition processCloud (self : CloudMatcher) (cloudMsg : sensor_msgs.PointCloud2)
    : CloudMatcher * list Effect :=
  let stamp := sensor_msgs.stamp cloudMsg in
  let points := sensor_msgs.points cloudMsg in
  let goodCount := countGood points 0 in
  if (goodCount =? 0)%nat then
    (self, emptyCloud self stamp)
  else
    let dp := buildDP points in
    let '(icp1, dp1, status) := icp_call (icp self) dp in
    let icpWasSuccess := match status with Returned => true | ConvergenceError _ => false end in
    let outcome :=
      match status with
      | Returned => Log (MatchRatio (getWeightedPointUsedRatio icp1))
      | ConvergenceError what => Log (FailedToConverge what)
      end in
    let '(icp2, deltaEffects) := sendDeltaPose self stamp icp1 dp1 icpWasSuccess in
    let transform := tfTransform (getTransform icp2) in
    let '(path', keyframeEffects) := recordKeyframe self icp2 transform in
    (set_state self icp2 path',
     reportCounts (length points) goodCount
     ++ [IcpCall dp; outcome]
     ++ deltaEffects
     ++ keyframeEffects
     ++ [SendTransform (stampedTransform self stamp transform)]).

(** Lines 77-233. *)
Definition gotCloud (self : CloudMatcher) (cloudMsg : sensor_msgs.PointCloud2)
    : CloudMatcher * list Effect :=
  if (dropCount self <? startupDropCount self)%Z then
    (set_dropCount self (UInt32.incr (dropCount self)), [])
  else processCloud self cloudMsg.

(** The test of line 79 lets the next cloud through. *)
Definition pastWarmUp (self : CloudMatcher) : Prop :=
  (dropCount self <? startupDropCount self)%Z = false.

(** The subscriber delivers the clouds one at a time, in order: the
    object after all of them, and the effects of each. *)
Fixpoint run (self : CloudMatcher) (clouds : list sensor_msgs.PointCloud2)
    : CloudMatcher * list (list Effect) :=
  match clouds with
  | [] => (self, [])
  | cloudMsg :: rest =>
      let '(self1, effects) := gotCloud self cloudMsg in
      let '(self2, later) := run self1 rest in
      (self2, effects :: later)
  end.

(** Modelled from the spec: the contract of the Registration collaborator.
    [MSA::ICPSequence] is declared in the point matcher library, outside
    this translation unit; the design text fixes what the engine may
    rely on.  A failed match does not update the absolute transform and
    leaves the frame's FeatureSet uncorrupted (also the comment at lines
    189-190); [resetTracking] only replaces the keyframe; after a
    converged match the absolute transform is the previous one composed
    with the delta transform. *)
Record RegistrationContract : Prop := {
  failed_call_keeps_transform : forall s dp s1 dp1 what,
    icp_call s dp = (s1, dp1, ConvergenceError what) ->
    getTransform s1 = getTransform s;
  failed_call_keeps_cloud : forall s dp s1 dp1 what,
    icp_call s dp = (s1, dp1, ConvergenceError what) ->
    dp1 = dp;
  resetTracking_keeps_transform : forall s dp,
    getTransform (resetTracking s dp) = getTransform s;
  converged_call_composes : forall s dp s1 dp1,
    icp_call s dp = (s1, dp1, Returned) ->
    getTransform s1 = TP_compose (getTransform s) (getDeltaTransform s1);
}.

End Node.

Arguments CloudMatcher : clear implicits.
Arguments RegistrationContract TP ICP {EigenTP Icp}.

(** ** A scripted Registration *)

Module Registration.

Section Scripted.

Context {TP : Type} {EigenTP : TransformationParameters TP}.

(** Modelled from the spec: the tagged RegistrationOutcome,
    [Converged{DeltaTransform, matchRatio}] or [Failed{reason}].  The
    numerical solver and its quality-driven keyframe decision are out
    of scope there; an outcome therefore also carries that decision. *)
Inductive Outcome :=
| Converged (delta : TP) (matchRatio : Scalar) (refreshKeyframe : bool)
| Failed (reason : string).

(** Modelled from the spec: the state behind the Registration
    interface [match], [resetTracking], [keyFrameCreatedAtLastCall]
    and the absolute transform, with the solver replaced by a script
    of outcomes (the scripted fake of the design notes). *)
Record State := {
  script : list Outcome;
  keyframe : option DP;
  absoluteTransform : TP;
  deltaTransform : TP;
  keyFrameCreated : bool;
  lastMatchRatio : Scalar;
}.

(** Modelled from the spec: created with the identity transform and no
    keyframe. *)
Definition initial (outcomes : list Outcome) : State :=
  {| script := outcomes; keyframe := None;
     absoluteTransform := TP_identity; deltaTransform := TP_identity;
     keyFrameCreated := false; lastMatchRatio := Scalar_zero |}.

(** Modelled from the spec: [match].  Without a keyframe the frame
    becomes the keyframe with identity delta.  Otherwise the next
    scripted outcome decides: on convergence the absolute transform
    becomes the previous one composed with the delta; on failure (or
    when the script has run out) nothing but the flag changes and the
    convergence failure is raised.  The frame itself is left as it
    was. *)
Definition call (s : State) (F : DP) : State * DP * CallStatus :=
  match keyframe s with
  | None =>
      ({| script := script s; keyframe := Some F;
          absoluteTransform := TP_compose (absoluteTransform s) TP_identity;
          deltaTransform := TP_identity;
          keyFrameCreated := true; lastMatchRatio := Scalar_one |},
       F, Returned)
  | Some K =>
      match script s with
      | Converged D ratio refresh :: later =>
          ({| script := later; keyframe := Some (if refresh then F else K);
              absoluteTransform := TP_compose (absoluteTransform s) D;
              deltaTransform := D;
              keyFrameCreated := refresh; lastMatchRatio := ratio |},
           F, Returned)
      | Failed reason :: later =>
          ({| script := later; keyframe := Some K;
              absoluteTransform := absoluteTransform s;
              deltaTransform := deltaTransform s;
              keyFrameCreated := false; lastMatchRatio := lastMatchRatio s |},
           F, ConvergenceError reason)
      | [] =>
          ({| script := []; keyframe := Some K;
              absoluteTransform := absoluteTransform s;
              deltaTransform := deltaTransform s;
              keyFrameCreated := false; lastMatchRatio := lastMatchRatio s |},
           F, ConvergenceError "script exhausted")
      end
  end.

(** Modelled from the spec: [resetTracking] discards the current
    keyframe and adopts the given set as the new one. *)
Definition reset (s : State) (F : DP) : State :=
  {| script := script s; keyframe := Some F;
     absoluteTransform := absoluteTransform s;
     deltaTransform := deltaTransform s;
     keyFrameCreated := keyFrameCreated s; lastMatchRatio := lastMatchRatio s |}.

#[global] Instance scripted : ICPSequence TP State := {
  icp_call := call;
  getWeightedPointUsedRatio := lastMatchRatio;
  getDeltaTransform := deltaTransform;
  getTransform := absoluteTransform;
  keyFrameCreatedAtLastCall := keyFrameCreated;
  resetTracking := reset;
}.

End Scripted.

Arguments Outcome : clear implicits.
Arguments State : clear implicits.

End Registration.

(** ** An ICP object that replays recorded answers *)

Module Replay.

Section Recorded.

Context {TP : Type} {EigenTP : TransformationParameters TP}.

(** What one call leaves behind: how it ended and what the getters
    report afterwards. *)
Record Answer := {
  status : CallStatus;
  transform : TP;
  delta : TP;
  keyFrameCreated : bool;
  matchRatio : Scalar;
}.

Record State := { pending : list Answer; shown : Answer }.

(** A call takes the next recorded answer; the cloud is left alone. *)
Definition call (s : State) (dp : DP) : State * DP * CallStatus :=
  match pending s with
  | [] => (s, dp, ConvergenceError "nothing recorded")
  | answer :: later => ({| pending := later; shown := answer |}, dp, status answer)
  end.

(** A reset starts the track afresh: a new keyframe, at the identity. *)
Definition reset (s : State) (dp : DP) : State :=
  {| pending := pending s;
     shown := {| status := Returned; transform := TP_identity; delta := TP_identity;
                 keyFrameCreated := true; matchRatio := Scalar_one |} |}.

#[global] Instance replay : ICPSequence TP State := {
  icp_call := call;
  getWeightedPointUsedRatio s := matchRatio (shown s);
  getDeltaTransform s := delta (shown s);
  getTransform s := transform (shown s);
  keyFrameCreatedAtLastCall s := keyFrameCreated (shown s);
  resetTracking := reset;
}.

End Recorded.

Arguments Answer : clear implicits.
Arguments State : clear implicits.

End Replay.

(** ** Rigid motions of the integer lattice

    An exact instance of the transformation interface: a 3x3 integer
    rotation block and an integer translation, composed like homogeneous
    4x4 matrices. *)

Module ZRigid.

Record V3 := { v0 : Z; v1 : Z; v2 : Z }.

(** Rows of the rotation block, and the translation column. *)
Record t := { r0 : V3; r1 : V3; r2 : V3; tr : V3 }.

Definition dot (a b : V3) : Z := v0 a * v0 b + v1 a * v1 b + v2 a * v2 b.

Definition col0 (m : t) : V3 := {| v0 := v0 (r0 m); v1 := v0 (r1 m); v2 := v0 (r2 m) |}.
Definition col1 (m : t) : V3 := {| v0 := v1 (r0 m); v1 := v1 (r1 m); v2 := v1 (r2 m) |}.
Definition col2 (m : t) : V3 := {| v0 := v2 (r0 m); v1 := v2 (r1 m); v2 := v2 (r2 m) |}.

Definition row_times (r : V3) (m : t) : V3 :=
  {| v0 := dot r (col0 m); v1 := dot r (col1 m); v2 := dot r (col2 m) |}.

Definition compose (a b : t) : t :=
  {| r0 := row_times (r0 a) b; r1 := row_times (r1 a) b; r2 := row_times (r2 a) b;
     tr := {| v0 := dot (r0 a) (tr b) + v0 (tr a);
              v1 := dot (r1 a) (tr b) + v1 (tr a);
              v2 := dot (r2 a) (tr b) + v2 (tr a) |} |}.

Definition identity : t :=
  {| r0 := {| v0 := 1; v1 := 0; v2 := 0 |};
     r1 := {| v0 := 0; v1 := 1; v2 := 0 |};
     r2 := {| v0 := 0; v1 := 0; v2 := 1 |};
     tr := {| v0 := 0; v1 := 0; v2 := 0 |} |}.

(** An integer as a [float]. *)
Definition scalar (n : Z) : Scalar := binary_normalize 24 128 n 0 false.

Definition translation (m : t) : geometry_msgs.Point :=
  {| geometry_msgs.x := scalar (v0 (tr m));
     geometry_msgs.y := scalar (v1 (tr m));
     geometry_msgs.z := scalar (v2 (tr m)) |}.

(** The quaternion of the rotation block up to its positive scale
    factor (no square root is taken). *)
Definition quaternion (m : t) : geometry_msgs.Quaternion :=
  {| geometry_msgs.qx := scalar (v1 (r2 m) - v2 (r1 m));
     geometry_msgs.qy := scalar (v2 (r0 m) - v0 (r2 m));
     geometry_msgs.qz := scalar (v0 (r1 m) - v1 (r0 m));
     geometry_msgs.qw := scalar (1 + v0 (r0 m) + v1 (r1 m) + v2 (r2 m)) |}.

#[global] Instance transformation : TransformationParameters t := {
  TP_identity := identity;
  TP_compose := compose;
  TP_translation := translation;
  TP_quaternion := quaternion;
}.

(** A quarter turn about the vertical axis followed by a shift. *)
Definition yaw90 : t :=
  {| r0 := {| v0 := 0; v1 := -1; v2 := 0 |};
     r1 := {| v0 := 1; v1 := 0; v2 := 0 |};
     r2 := {| v0 := 0; v1 := 0; v2 := 1 |};
     tr := {| v0 := 1; v1 := 2; v2 := 3 |} |}.

End ZRigid.

(** ** Sample data *)

Module Sample.

Definition f (n : Z) : Scalar := ZRigid.scalar n.

Definition pt (a b c : Scalar) : pcl.PointXYZ := {| pcl.x := a; pcl.y := b; pcl.z := c |}.

Definition t0 : ros.Time := {| ros.sec := 100; ros.nsec := 0 |}.
Definition t1 : ros.Time := {| ros.sec := 100; ros.nsec := 33000000 |}.
Definition t2 : ros.Time := {| ros.sec := 100; ros.nsec := 66000000 |}.

(** A cloud with two measured points around a dropout. *)
Definition cloud (stamp : ros.Time) : sensor_msgs.PointCloud2 :=
  {| sensor_msgs.stamp := stamp;
     sensor_msgs.points :=
       [pt (f 1) (f 2) (f 3); pt S754_nan S754_nan S754_nan; pt (f 4) (f 5) (f 6)] |}.

(** A cloud of dropouts only. *)
Definition dropouts (stamp : ros.Time) : sensor_msgs.PointCloud2 :=
  {| sensor_msgs.stamp := stamp;
     sensor_msgs.points := [pt S754_nan S754_nan S754_nan; pt S754_nan S754_nan S754_nan] |}.

(** A cloud without any point. *)
Definition nothing (stamp : ros.Time) : sensor_msgs.PointCloud2 :=
  {| sensor_msgs.stamp := stamp; sensor_msgs.points := [] |}.

(** A point whose x is a number while y is NaN, and one at infinity. *)
Definition halfBroken : list pcl.PointXYZ :=
  [pt (f 0) S754_nan (f 0); pt (S754_infinity false) (f 0) (f 0)].

Definition ICP : Type := Registration.State ZRigid.t.

(** A tracker that already holds a keyframe, stands at the given
    absolute transform and whose next matches follow the given script. *)
Definition tracking (absolute : ZRigid.t) (outcomes : list (Registration.Outcome ZRigid.t))
    : ICP :=
  {| Registration.script := outcomes;
     Registration.keyframe := Some (buildDP [pt (f 7) (f 8) (f 9)]);
     Registration.absoluteTransform := absolute;
     Registration.deltaTransform := ZRigid.identity;
     Registration.keyFrameCreated := true;
     Registration.lastMatchRatio := Scalar_one |}.

Definition node (icp0 : ICP) (sendDeltaPoseMessage : bool) (drop : Z) : CloudMatcher ICP :=
  CloudMatcher_new icp0 sendDeltaPoseMessage "/world" "/openni_rgb_optical_frame" drop.

(** A node fresh from its constructor, without warm-up. *)
Definition node_fresh : CloudMatcher ICP := node (Registration.initial []) true 0.

(** A node that drops its first two clouds. *)
Definition node_warming : CloudMatcher ICP := node (Registration.initial []) true 2.

(** A node whose next match fails to converge. *)
Definition node_failing (sendDeltaPoseMessage : bool) : CloudMatcher ICP :=
  node (tracking ZRigid.yaw90 [Registration.Failed "no convergence"]) sendDeltaPoseMessage 0.

(** A node at the identity whose next match converges on a quarter turn
    and refreshes the keyframe. *)
Definition node_converging : CloudMatcher ICP :=
  node (tracking ZRigid.identity [Registration.Converged ZRigid.yaw90 Scalar_one true]) true 0.

(** A cloud none of whose points has three finite coordinates, while
    the x of each is a number or an infinity. *)
Definition halfBrokenCloud (stamp : ros.Time) : sensor_msgs.PointCloud2 :=
  {| sensor_msgs.stamp := stamp; sensor_msgs.points := halfBroken |}.




End Sample.

(** [allNaN p]: the three position and four orientation components of a
    delta pose are NaN. *)
Definition allNaN (p : geometry_msgs.PoseWithCovarianceStamped) : bool :=
  let pos := geometry_msgs.position (geometry_msgs.pwc_pose p) in
  let ori := geometry_msgs.orientation (geometry_msgs.pwc_pose p) in
  isnan (geometry_msgs.x pos) && isnan (geometry_msgs.y pos) && isnan (geometry_msgs.z pos)
  && isnan (geometry_msgs.qx ori) && isnan (geometry_msgs.qy ori)
  && isnan (geometry_msgs.qz ori) && isnan (geometry_msgs.qw ori).

(** ** Start-up: parameters, constructor and [main] *)

(** A value of one of the two parameter types the node reads. *)
Inductive ParamValue :=
| PString (s : string)
| PInt (i : Z).

(** [ros::param::get(key, v)] at the two types used, on the parameter
    server as it stands when the node starts: the stored value, or
    nothing when the call answers false. *)
Class ParamServer := {
  param_get_string : string -> option string;
  param_get_int : string -> option Z;
}.

(** Construction of the ICP object, from [icp_chain_creation.h] and the
    point matcher library: [MSA::ICPSequence(dim, statFilePrefix)] and
    [populateParameters(icp)]. *)
Class ICPChainCreation (ICP : Type) := {
  ICPSequence_new : Z -> string -> ICP;
  populateParameters : ICP -> ICP;
}.

(** What the node does before the first cloud arrives. *)
Inductive StartupEffect :=
| FoundParameter (name : string) (value : ParamValue)        (* ROS_INFO, line 9 *)
| CannotFindParameter (name : string) (default : ParamValue) (* ROS_WARN, line 13 *)
| InitParameters                                             (* initParameters(), line 237 *)
| RosInit (name : string)                                    (* ros::init, line 239 *)
| Subscribe (topic : string) (queue : Z)                     (* n.subscribe, line 64 *)
| AdvertisePath (topic : string) (queue : Z)                 (* n.advertise<nav_msgs::Path>, line 67 *)
| AdvertisePose (topic : string) (queue : Z)                 (* n.advertise<...Stamped>, line 74 *)
| PopulateParameters.                                        (* populateParameters(icp), line 71 *)

Definition is_Subscribe (e : StartupEffect) : bool :=
  match e with Subscribe _ _ => true | _ => false end.
Definition is_AdvertisePath (e : StartupEffect) : bool :=
  match e with AdvertisePath _ _ => true | _ => false end.
Definition is_AdvertisePose (e : StartupEffect) : bool :=
  match e with AdvertisePose _ _ => true | _ => false end.
Definition is_CannotFindParameter (e : StartupEffect) : bool :=
  match e with CannotFindParameter _ _ => true | _ => false end.

(** The parameter a log line of [getParam] is about, if it is one. *)
Definition parameterOf (e : StartupEffect) : option string :=
  match e with
  | FoundParameter name _ | CannotFindParameter name _ => Some name
  | _ => None
  end.

(** Lines 3-15: [getParam<T>], with [get] the [ros::param::get] of type
    [T] and [shown] the value as it is streamed into the log. *)
Definition getParam {T : Type} (get : string -> option T) (shown : T -> ParamValue)
    (name : string) (defaultValue : T) : T * list StartupEffect :=
  match get ("~" +:+ name) with
  | Some v => (v, [FoundParameter name (shown v)])
  | None => (defaultValue, [CannotFindParameter name (shown defaultValue)])
  end.

(** Lines 243-245: the scan of the arguments after the program name,
    [sendDeltaPoseMessage] being the flag so far. *)
Fixpoint scanArgs (args : list string) (sendDeltaPoseMessage : bool) : bool :=
  match args with
  | [] => sendDeltaPoseMessage
  | arg :: rest =>
      scanArgs rest (if String.eqb arg "--senddeltapose" then true else sendDeltaPoseMessage)
  end.

(** A cloud with at least one good point. *)
Definition hasGood (cloudMsg : sensor_msgs.PointCloud2) : bool :=
  negb (countGood (sensor_msgs.points cloudMsg) 0 =? 0)%nat.

Section Startup.

Context {TP ICP : Type}.
Context {EigenTP : TransformationParameters TP}.
Context {Icp : ICPSequence TP ICP}.
Context {Chain : ICPChainCreation ICP}.
Context {Params : ParamServer}.

(** Lines 54-75: the constructor, with what it logs, subscribes to and
    advertises.  Members are initialised in declaration order, which is
    the order of the initialiser list. *)
Definition CloudMatcher_ctor (statFilePrefix : string) (sendDeltaPoseMessage : bool)
    : CloudMatcher ICP * list StartupEffect :=
  let icp0 := ICPSequence_new 3 statFilePrefix in
  let '(fixedFrame, e1) := getParam param_get_string PString "fixedFrame" "/world" in
  let '(sensorFrame, e2) :=
    getParam param_get_string PString "sensorFrame" "/openni_rgb_optical_frame" in
  let '(startupDropCount, e3) := getParam param_get_int PInt "startupDropCount" 0 in
  let '(cloudTopic, e4) :=
    getParam param_get_string PString "cloudTopic" "/camera/rgb/points" in
  let '(pathTopic, e5) := getParam param_get_string PString "path" "/tracker_path" in
  let icp1 := populateParameters icp0 in
  let e6 :=
    if sendDeltaPoseMessage then
      let '(poseTopic, e) :=
        getParam param_get_string PString "deltaPoseTopic" "/openni_delta_pose" in
      e ++ [AdvertisePose poseTopic 3]
    else [] in
  (CloudMatcher_new icp1 sendDeltaPoseMessage fixedFrame sensorFrame startupDropCount,
   e1 ++ e2 ++ e3 ++ e4 ++ [Subscribe cloudTopic 1] ++ e5
   ++ [AdvertisePath pathTopic 1; PopulateParameters] ++ e6).

(** Lines 235-252.  [argv] is the argument vector as [ros::init] leaves
    it; [ros::spin] hands the clouds of the subscription to the callback
    one after the other.  The result is what happened at start-up and
    the effects of each cloud. *)
Definition main (argv : list string) (clouds : list sensor_msgs.PointCloud2)
    : list StartupEffect * list (list Effect) :=
  let sendDeltaPoseMessage := scanArgs (drop 1 argv) false in
  let '(statFilePrefix, e0) := getParam param_get_string PString "statFilePrefix" "" in
  let '(matcher, e1) := CloudMatcher_ctor statFilePrefix sendDeltaPoseMessage in
  ([InitParameters; RosInit "cloud_matcher_node"] ++ e0 ++ e1,
   snd (run matcher clouds)).

End Startup.

(** The header every pose of the path is given (lines 219-220): the
    sensor frame, and a stamp that is never set. *)
Definition keyframeHeader {ICP : Type} (self : CloudMatcher ICP) : ros.Header :=
  {| ros.stamp := ros.Time_zero; ros.frame_id := sensorFrame self |}.

(** ** Sample start-up environments *)

Module SampleStartup.

(** A parameter server backed by a dictionary; a value of the other type
    under the key does not answer the request. *)
Definition server (stored : gmap string ParamValue) : ParamServer :=
  {| param_get_string key :=
       match stored !! key with Some (PString s) => Some s | _ => None end;
     param_get_int key :=
       match stored !! key with Some (PInt i) => Some i | _ => None end |}.

(** No parameter set. *)
Definition bare : ParamServer := server ∅.

(** A server that asks for minus three start-up drops and renames the
    fixed frame. *)
Definition tuned : ParamServer :=
  server (<["~startupDropCount" := PInt (-3)]> (<["~fixedFrame" := PString "/map"]> ∅)).

#[global] Instance chain : ICPChainCreation Sample.ICP :=
  {| ICPSequence_new _ _ := Registration.initial [];
     populateParameters icp0 := icp0 |}.

End SampleStartup.

(** Unfolds the three stages after the ICP call and splits on the flags
    they test. *)
Ltac stages self status :=
  unfold sendDeltaPose, recordKeyframe, reportCounts, occurrences;
  destruct (sendDeltaPoseMessage self) eqn:?; destruct status;
  cbn [fst snd];
  repeat match goal with
         | |- context [if ?b then _ else _] => destruct b eqn:?
         end;
  cbn [List.filter app fst snd length is_IcpCall is_IcpResetTracking is_PosePublish
       is_PathPublish is_SendTransform is_PartialImage is_Log].

(** * Properties *)

(** ** The scans *)

Lemma countGood_acc pts acc :
  countGood pts acc = (acc + length (List.filter good pts))%nat.
Proof.
  revert acc; induction pts as [|p rest IH]; intros acc; simpl.
  - lia.
  - unfold good at 1. destruct (negb (isnan (pcl.x p))); simpl; rewrite IH; lia.
Qed.

Lemma coeffRef_set_at r v (pre : Features) col rest :
  coeffRef_set r (length pre) v (pre ++ col :: rest) = pre ++ <[r := v]> col :: rest.
Proof.
  unfold coeffRef_set, Features in *.
  rewrite alter_app_r_alt by lia.
  replace (length pre - length pre)%nat with 0%nat by lia. reflexivity.
Qed.

Lemma fillFeatures_spec pts : forall pre n,
  n = length (List.filter good pts) ->
  fillFeatures pts (length pre) (pre ++ Features_new 4 n)
  = pre ++ List.map column (List.filter good pts).
Proof.
  induction pts as [|p rest IH]; intros pre n Hn; simpl in *.
  - subst n. reflexivity.
  - unfold good at 1 in Hn. unfold good at 1.
    destruct (negb (isnan (pcl.x p))); simpl in *.
    + subst n. unfold Features_new. simpl.
      rewrite !coeffRef_set_at. simpl.
      specialize (IH (pre ++ [column p]) (length (List.filter good rest))).
      rewrite length_app in IH. simpl in IH.
      replace (length pre + 1)%nat with (S (length pre)) in IH by lia.
      rewrite <- !app_assoc in IH. simpl in IH.
      apply IH. reflexivity.
    + apply IH. exact Hn.
Qed.

Lemma countGood_filter pts : countGood pts 0 = length (List.filter good pts).
Proof. rewrite countGood_acc. reflexivity. Qed.

Lemma buildDP_features pts :
  features (buildDP pts) = List.map column (List.filter good pts).
Proof.
  unfold buildDP; simpl.
  apply (fillFeatures_spec pts [] (countGood pts 0)), countGood_filter.
Qed.

(** The matrix has as many columns as the counting loop found good
    points. *)
Lemma buildDP_cols pts :
  Features_cols (features (buildDP pts)) = countGood pts 0.
Proof.
  rewrite buildDP_features, countGood_filter.
  unfold Features_cols. apply length_map.
Qed.

Lemma countGood_zero pts :
  countGood pts 0 = 0%nat <-> Forall (fun p => isnan (pcl.x p) = true) pts.
Proof.
  rewrite countGood_filter. induction pts as [|p rest IH]; simpl.
  - split; [constructor | reflexivity].
  - unfold good at 1. destruct (isnan (pcl.x p)) eqn:Hx; simpl.
    + rewrite IH. split; [intros H; constructor; assumption | intros H; inversion H; assumption].
    + split; [discriminate | intros H; inversion H; congruence].
Qed.

Lemma all_finite_good p : all_finite p = true -> good p = true.
Proof.
  unfold all_finite, good. destruct (pcl.x p); simpl; intros H; try reflexivity; discriminate.
Qed.

Lemma countGood_all_finite pts p :
  In p pts -> all_finite p = true -> countGood pts 0 <> 0%nat.
Proof.
  intros Hin Hfin Hzero. apply countGood_zero in Hzero.
  rewrite List.Forall_forall in Hzero. specialize (Hzero p Hin).
  apply all_finite_good in Hfin. unfold good in Hfin. rewrite Hzero in Hfin. discriminate.
Qed.

(** C1, as the callback has it: a point is counted, and copied, exactly
    when its x coordinate is not NaN (y and z are not looked at, and an
    infinite x passes); the matrix handed to ICP has one column per such
    point, in cloud order, holding x, y, z and 1. *)
Theorem C1_columns_of_good_points (pts : list pcl.PointXYZ) :
  (forall p, good p = true <-> isnan (pcl.x p) = false)
  /\ countGood pts 0 = length (List.filter good pts)
  /\ features (buildDP pts) = List.map column (List.filter good pts)
  /\ Features_cols (features (buildDP pts)) = length (List.filter good pts)
  /\ Forall (fun col => length col = 4%nat) (features (buildDP pts)).
Proof.
  split; [|split; [|split; [|split]]].
  - intros p. unfold good. destruct (isnan (pcl.x p)); simpl; split; congruence.
  - apply countGood_filter.
  - apply buildDP_features.
  - rewrite buildDP_cols. apply countGood_filter.
  - rewrite buildDP_features. apply List.Forall_forall. intros col Hin.
    apply List.in_map_iff in Hin. destruct Hin as [p [<- _]]. reflexivity.
Qed.

(** C1 as worded fails: a point with a numeric x and a NaN y, and a point
    at infinity, are both counted and copied although neither has three
    finite coordinates. *)
Lemma C1_counterexample :
  List.map good Sample.halfBroken = [true; true]
  /\ List.map all_finite Sample.halfBroken = [false; false]
  /\ Features_cols (features (buildDP Sample.halfBroken)) = 2%nat
  /\ Features_cols (features (buildDP Sample.halfBroken))
     <> length (List.filter all_finite Sample.halfBroken).
Proof.
  repeat split; try reflexivity.
  vm_compute. discriminate.
Qed.

(** ** Unsigned counters *)

Lemma UInt32_of_int_range v : UInt32.in_range (UInt32.of_int v).
Proof. unfold UInt32.in_range, UInt32.of_int, UInt32.modulus. apply Z.mod_pos_bound. lia. Qed.

Lemma UInt32_incr_below d s :
  0 <= d -> d < s -> UInt32.in_range s -> UInt32.incr d = d + 1.
Proof.
  unfold UInt32.in_range, UInt32.incr. intros Hd Hlt [_ Hs].
  apply Z.mod_small. lia.
Qed.

(** ** The callback, branch by branch *)

Lemma occurrences_app f (a b : list Effect) :
  occurrences f (a ++ b) = (occurrences f a + occurrences f b)%nat.
Proof. unfold occurrences. rewrite List.filter_app, length_app. reflexivity. Qed.

Section Callback.

Context {TP ICP : Type}.
Context {EigenTP : TransformationParameters TP}.
Context {Icp : ICPSequence TP ICP}.

Implicit Types (self : CloudMatcher ICP) (cloudMsg : sensor_msgs.PointCloud2).

Lemma gotCloud_dropped self cloudMsg :
  dropCount self < startupDropCount self ->
  gotCloud self cloudMsg = (set_dropCount self (UInt32.incr (dropCount self)), []).
Proof. intros H. unfold gotCloud. apply Z.ltb_lt in H. rewrite H. reflexivity. Qed.

Lemma gotCloud_processed self cloudMsg :
  pastWarmUp self -> gotCloud self cloudMsg = processCloud self cloudMsg.
Proof. unfold pastWarmUp, gotCloud. intros ->. reflexivity. Qed.

Lemma processCloud_empty self cloudMsg :
  countGood (sensor_msgs.points cloudMsg) 0 = 0%nat ->
  processCloud self cloudMsg = (self, emptyCloud self (sensor_msgs.stamp cloudMsg)).
Proof. intros H. unfold processCloud. rewrite H. reflexivity. Qed.

(** The path through lines 126-232, given how [icp(dp)] ended. *)
Lemma processCloud_nonempty self cloudMsg icp1 dp1 status :
  countGood (sensor_msgs.points cloudMsg) 0 <> 0%nat ->
  icp_call (icp self) (buildDP (sensor_msgs.points cloudMsg)) = (icp1, dp1, status) ->
  processCloud self cloudMsg =
    let stamp := sensor_msgs.stamp cloudMsg in
    let points := sensor_msgs.points cloudMsg in
    let icpWasSuccess := match status with Returned => true | ConvergenceError _ => false end in
    let outcome :=
      match status with
      | Returned => Log (MatchRatio (getWeightedPointUsedRatio icp1))
      | ConvergenceError what => Log (FailedToConverge what)
      end in
    let delta := sendDeltaPose self stamp icp1 dp1 icpWasSuccess in
    let transform := tfTransform (getTransform (fst delta)) in
    let keyframe := recordKeyframe self (fst delta) transform in
    (set_state self (fst delta) (fst keyframe),
     reportCounts (length points) (countGood points 0)
     ++ [IcpCall (buildDP points); outcome]
     ++ snd delta
     ++ snd keyframe
     ++ [SendTransform (stampedTransform self stamp transform)]).
Proof.
  intros Hgood Hcall. unfold processCloud.
  destruct (countGood (sensor_msgs.points cloudMsg) 0 =? 0)%nat eqn:Hz.
  - apply Nat.eqb_eq in Hz. contradiction.
  - rewrite Hcall. cbv zeta.
    destruct (sendDeltaPose _ _ _ _ _) as [icp2 deltaEffects].
    cbn [fst snd].
    destruct (recordKeyframe _ _ _) as [path' keyframeEffects].
    reflexivity.
Qed.

Lemma processCloud_counters self cloudMsg :
  dropCount (fst (processCloud self cloudMsg)) = dropCount self
  /\ startupDropCount (fst (processCloud self cloudMsg)) = startupDropCount self.
Proof.
  unfold processCloud.
  destruct (countGood (sensor_msgs.points cloudMsg) 0 =? 0)%nat; [split; reflexivity|].
  destruct (icp_call _ _) as [[icp1 dp1] status].
  destruct (sendDeltaPose _ _ _ _ _) as [icp2 deltaEffects].
  destruct (recordKeyframe _ _ _) as [path' keyframeEffects].
  split; reflexivity.
Qed.

Lemma gotCloud_startupDropCount self cloudMsg :
  startupDropCount (fst (gotCloud self cloudMsg)) = startupDropCount self.
Proof.
  unfold gotCloud. destruct (dropCount self <? startupDropCount self)%Z.
  - reflexivity.
  - apply processCloud_counters.
Qed.

Lemma run_app self front back :
  run self (front ++ back) =
    (fst (run (fst (run self front)) back),
     snd (run self front) ++ snd (run (fst (run self front)) back)).
Proof.
  revert self. induction front as [|c front IH]; intros self; simpl.
  - destruct (run self back); reflexivity.
  - destruct (gotCloud self c) as [self1 effects].
    rewrite IH. destruct (run self1 front) as [self2 later]. simpl.
    destruct (run self2 back); reflexivity.
Qed.

(** While the counter is below its bound every cloud is swallowed. *)
Lemma run_warm_up : forall clouds self,
  0 <= dropCount self ->
  UInt32.in_range (startupDropCount self) ->
  dropCount self + Z.of_nat (length clouds) <= startupDropCount self ->
  run self clouds =
    (set_dropCount self (dropCount self + Z.of_nat (length clouds)),
     List.map (fun _ => []) clouds).
Proof.
  induction clouds as [|c rest IH]; intros self Hd Hs Hle.
  - simpl. rewrite Z.add_0_r. destruct self; reflexivity.
  - cbn [run]. rewrite gotCloud_dropped by (simpl length in Hle; lia).
    rewrite (UInt32_incr_below (dropCount self) (startupDropCount self))
      by first [assumption | simpl length in Hle; lia].
    rewrite IH; cbn [dropCount startupDropCount set_dropCount];
      try assumption; try (simpl length in Hle; lia).
    replace (dropCount self + Z.of_nat (length (c :: rest)))
      with (dropCount self + 1 + Z.of_nat (length rest)) by (simpl length; lia).
    reflexivity.
Qed.

(** Once the counter has reached its bound it stays there. *)
Lemma run_tracking : forall clouds self,
  pastWarmUp self ->
  dropCount (fst (run self clouds)) = dropCount self
  /\ startupDropCount (fst (run self clouds)) = startupDropCount self.
Proof.
  induction clouds as [|c rest IH]; intros self Hpast.
  - split; reflexivity.
  - cbn [run]. rewrite gotCloud_processed by assumption.
    pose proof (processCloud_counters self c) as [Hd Hs].
    destruct (processCloud self c) as [self1 effects]. cbn [fst] in Hd, Hs.
    assert (Hpast1 : pastWarmUp self1) by (unfold pastWarmUp in *; congruence).
    specialize (IH self1 Hpast1). destruct (run self1 rest) as [self2 later].
    cbn [fst] in *. split; [rewrite <- Hd | rewrite <- Hs]; apply IH.
Qed.

(** Every state the subscriber can bring the object to keeps the
    counter between zero and its constant bound. *)
Lemma run_counter_bounds : forall clouds self,
  0 <= dropCount self <= startupDropCount self ->
  UInt32.in_range (startupDropCount self) ->
  0 <= dropCount (fst (run self clouds)) <= startupDropCount self
  /\ startupDropCount (fst (run self clouds)) = startupDropCount self
  /\ dropCount (fst (run self clouds))
     = Z.min (dropCount self + Z.of_nat (length clouds)) (startupDropCount self).
Proof.
  induction clouds as [|c rest IH]; intros self Hd Hs.
  - simpl. split; [assumption | split; [reflexivity | lia]].
  - destruct (Z.ltb_spec (dropCount self) (startupDropCount self)) as [Hlt | Hge].
    + cbn [run]. rewrite gotCloud_dropped by assumption.
      rewrite (UInt32_incr_below (dropCount self) (startupDropCount self))
        by first [assumption | lia].
      specialize (IH (set_dropCount self (dropCount self + 1))).
      cbn [dropCount startupDropCount set_dropCount] in IH.
      destruct (run (set_dropCount self (dropCount self + 1)) rest) as [self2 later].
      cbn [fst] in *. simpl length.
      destruct IH as (H1 & H2 & H3); [lia | assumption |].
      split; [assumption | split; [assumption | rewrite H3; lia]].
    + assert (Hpast : pastWarmUp self) by (apply Z.ltb_ge; assumption).
      destruct (run_tracking (c :: rest) self Hpast) as [H1 H2].
      rewrite H1, H2. split; [assumption | split; [reflexivity | simpl length; lia]].
Qed.

End Callback.

(** ** The claims about one cloud *)

Lemma filter_In_PathPublish (trace : list Effect) :
  (exists p, In (PathPublish p) trace) <-> List.filter is_PathPublish trace <> [].
Proof.
  split.
  - intros [p Hin] Hnil.
    assert (H : In (PathPublish p) (List.filter is_PathPublish trace))
      by (apply List.filter_In; split; [assumption | reflexivity]).
    rewrite Hnil in H. destruct H.
  - intros Hne. destruct (List.filter is_PathPublish trace) as [|e rest] eqn:Hf; [contradiction|].
    assert (H : In e (List.filter is_PathPublish trace)) by (rewrite Hf; left; reflexivity).
    apply List.filter_In in H. destruct H as [Hin He].
    destruct e; try discriminate. eexists; eassumption.
Qed.

Section Claims.

Context {TP ICP : Type}.
Context {EigenTP : TransformationParameters TP}.
Context {Icp : ICPSequence TP ICP}.

Implicit Types (self : CloudMatcher ICP) (cloudMsg : sensor_msgs.PointCloud2).

(** C4: past the warm-up, a cloud without a good point never reaches ICP
    (no call, no reset), leaves the object as it was and broadcasts no
    transform; with the delta pose enabled exactly one pose is published,
    all of whose position and orientation components are NaN and whose
    stamp is the stamp of the cloud; without it nothing is published. *)
Theorem C4_empty_cloud self cloudMsg :
  pastWarmUp self ->
  countGood (sensor_msgs.points cloudMsg) 0 = 0%nat ->
  let stamp := sensor_msgs.stamp cloudMsg in
  let trace := snd (gotCloud self cloudMsg) in
  fst (gotCloud self cloudMsg) = self
  /\ occurrences is_IcpCall trace = 0%nat
  /\ occurrences is_IcpResetTracking trace = 0%nat
  /\ occurrences is_SendTransform trace = 0%nat
  /\ occurrences is_PathPublish trace = 0%nat
  /\ List.filter is_PosePublish trace
     = (if sendDeltaPoseMessage self then [PosePublish (nanPose stamp)] else [])
  /\ allNaN (nanPose stamp) = true
  /\ ros.stamp (geometry_msgs.pwc_header (nanPose stamp)) = stamp.
Proof.
  intros Hpast Hzero stamp trace. subst stamp trace.
  rewrite gotCloud_processed by assumption.
  rewrite processCloud_empty by assumption.
  unfold emptyCloud, occurrences. cbn [fst snd].
  destruct (sendDeltaPoseMessage self); repeat split; reflexivity.
Qed.

(** C6: past the warm-up, a cloud with at least one good point is handed
    to ICP exactly once, as the matrix built from it, whether or not the
    good count is below 10000; that test only decides whether the partial
    image line is logged. *)
Theorem C6_registration_attempted_once self cloudMsg :
  pastWarmUp self ->
  countGood (sensor_msgs.points cloudMsg) 0 <> 0%nat ->
  let points := sensor_msgs.points cloudMsg in
  let trace := snd (gotCloud self cloudMsg) in
  List.filter is_IcpCall trace = [IcpCall (buildDP points)]
  /\ occurrences is_PartialImage trace
     = (if (Z.of_nat (countGood points 0) <? 10000)%Z then 1 else 0)%nat.
Proof.
  intros Hpast Hgood points trace. subst points trace.
  rewrite gotCloud_processed by assumption.
  destruct (icp_call (icp self) (buildDP (sensor_msgs.points cloudMsg)))
    as [[icp1 dp1] status] eqn:Hcall.
  rewrite (processCloud_nonempty _ _ _ _ _ Hgood Hcall). cbv zeta. cbn [fst snd].
  stages self status; split; reflexivity.
Qed.

(** C8: past the warm-up and for a cloud with a good point, the path is
    published exactly when [keyFrameCreatedAtLastCall] answers true at
    line 216 (the ICP object is not touched afterwards); then the pose of
    the broadcast transform has been appended to the path and the
    extended path is what is published, once; otherwise the path is
    unchanged and nothing is published on it. *)
Theorem C8_keyframe_event self cloudMsg :
  pastWarmUp self ->
  countGood (sensor_msgs.points cloudMsg) 0 <> 0%nat ->
  let self' := fst (gotCloud self cloudMsg) in
  let trace := snd (gotCloud self cloudMsg) in
  let pose := keyframePose (sensorFrame self) (tfTransform (getTransform (icp self'))) in
  ((exists p, In (PathPublish p) trace) <-> keyFrameCreatedAtLastCall (icp self') = true)
  /\ (keyFrameCreatedAtLastCall (icp self') = true ->
      nav_msgs.poses (path self') = nav_msgs.poses (path self) ++ [pose]
      /\ List.filter is_PathPublish trace = [PathPublish (path self')])
  /\ (keyFrameCreatedAtLastCall (icp self') = false ->
      path self' = path self
      /\ List.filter is_PathPublish trace = []).
Proof.
  intros Hpast Hgood self' trace pose. subst self' trace pose.
  rewrite filter_In_PathPublish.
  rewrite gotCloud_processed by assumption.
  destruct (icp_call (icp self) (buildDP (sensor_msgs.points cloudMsg)))
    as [[icp1 dp1] status] eqn:Hcall.
  rewrite (processCloud_nonempty _ _ _ _ _ Hgood Hcall). cbv zeta. cbn [fst snd].
  stages self status; cbn [icp path set_state nav_msgs.poses];
    repeat split; intros; try reflexivity; try congruence.
Qed.

(** C2, as the callback has it: past the warm-up, when [icp(dp)] throws
    [ConvergenceError] on a cloud with a good point, the error is caught
    and logged, ICP is not called a second time and the callback runs on
    to its transform broadcast.  With the delta pose enabled the tracker
    is reset with the frame's data points as the failed call left them
    (unchanged, under the Registration contract) and exactly one pose is
    published, all NaN in position and orientation, stamped with the
    cloud's stamp; the message has no success field, failure is carried by
    the NaN values alone.  With the delta pose disabled there is no reset
    and no pose. *)
Theorem C2_failure_recovery self cloudMsg icp1 dp1 what :
  pastWarmUp self ->
  countGood (sensor_msgs.points cloudMsg) 0 <> 0%nat ->
  icp_call (icp self) (buildDP (sensor_msgs.points cloudMsg))
    = (icp1, dp1, ConvergenceError what) ->
  let stamp := sensor_msgs.stamp cloudMsg in
  let self' := fst (gotCloud self cloudMsg) in
  let trace := snd (gotCloud self cloudMsg) in
  List.filter is_IcpCall trace = [IcpCall (buildDP (sensor_msgs.points cloudMsg))]
  /\ In (Log (FailedToConverge what)) trace
  /\ occurrences is_SendTransform trace = 1%nat
  /\ (sendDeltaPoseMessage self = true ->
      icp self' = resetTracking icp1 dp1
      /\ List.filter is_IcpResetTracking trace = [IcpResetTracking dp1]
      /\ List.filter is_PosePublish trace = [PosePublish (nanPose stamp)]
      /\ allNaN (nanPose stamp) = true
      /\ ros.stamp (geometry_msgs.pwc_header (nanPose stamp)) = stamp)
  /\ (sendDeltaPoseMessage self = false ->
      icp self' = icp1
      /\ List.filter is_IcpResetTracking trace = []
      /\ List.filter is_PosePublish trace = [])
  /\ (RegistrationContract TP ICP -> dp1 = buildDP (sensor_msgs.points cloudMsg)).
Proof.
  intros Hpast Hgood Hcall stamp self' trace. subst stamp self' trace.
  rewrite gotCloud_processed by assumption.
  rewrite (processCloud_nonempty _ _ _ _ _ Hgood Hcall). cbv zeta. cbn [fst snd].
  assert (Hdp : RegistrationContract TP ICP -> dp1 = buildDP (sensor_msgs.points cloudMsg))
    by (intros C; exact (failed_call_keeps_cloud C _ _ _ _ _ Hcall)).
  unfold sendDeltaPose, recordKeyframe, reportCounts, occurrences.
  destruct (sendDeltaPoseMessage self) eqn:Hsend; cbn [fst snd];
    repeat match goal with
           | |- context [if ?b then _ else _] => destruct b eqn:?
           end;
    cbn [List.filter app fst snd length is_IcpCall is_IcpResetTracking is_PosePublish
         is_SendTransform icp set_state];
    repeat split; intros; try reflexivity; try discriminate; try (apply Hdp; assumption);
    cbn; tauto.
Qed.



(** What a cloud with a good point brings about once it is past the
    warm-up, effect kind by effect kind.  [reported] is the ICP object
    whose transform line 205 reads: the one the call left, or the one
    the reset of line 191 left. *)
Lemma gotCloud_tracked self cloudMsg :
  pastWarmUp self ->
  countGood (sensor_msgs.points cloudMsg) 0 <> 0%nat ->
  let stamp := sensor_msgs.stamp cloudMsg in
  let points := sensor_msgs.points cloudMsg in
  let call := icp_call (icp self) (buildDP points) in
  let icp1 := fst (fst call) in
  let dp1 := snd (fst call) in
  let failed := match snd call with Returned => false | ConvergenceError _ => true end in
  let reported :=
    if failed && sendDeltaPoseMessage self then resetTracking icp1 dp1 else icp1 in
  let self' := fst (gotCloud self cloudMsg) in
  let trace := snd (gotCloud self cloudMsg) in
  icp self' = reported
  /\ dropCount self' = dropCount self
  /\ (exists later, trace = Log (GotPoints (length points) (countGood points 0)) :: later)
  /\ List.filter is_IcpCall trace = [IcpCall (buildDP points)]
  /\ List.filter is_IcpResetTracking trace
     = (if failed && sendDeltaPoseMessage self then [IcpResetTracking dp1] else [])
  /\ List.filter is_PosePublish trace
     = (if sendDeltaPoseMessage self
        then [PosePublish
                (if failed then nanPose stamp
                 else {| geometry_msgs.pwc_header :=
                           {| ros.stamp := stamp; ros.frame_id := "" |};
                         geometry_msgs.pwc_pose :=
                           {| geometry_msgs.position :=
                                TP_translation (getDeltaTransform icp1);
                              geometry_msgs.orientation :=
                                TP_quaternion (getDeltaTransform icp1) |} |})]
        else [])
  /\ List.filter is_SendTransform trace
     = [SendTransform
          {| tf.transform :=
               {| tf.rotation := TP_quaternion (getTransform reported);
                  tf.origin := TP_translation (getTransform reported) |};
             tf.stamp := stamp;
             tf.frame_id := fixedFrame self;
             tf.child_frame_id := sensorFrame self |}].
Proof.
  intros Hpast Hgood stamp points call icp1 dp1 failed reported self' trace.
  subst self' trace reported failed dp1 icp1 call points stamp.
  rewrite gotCloud_processed by assumption.
  destruct (icp_call (icp self) (buildDP (sensor_msgs.points cloudMsg)))
    as [[icp1 dp1] status] eqn:Hcall.
  rewrite (processCloud_nonempty _ _ _ _ _ Hgood Hcall). cbv zeta. cbn [fst snd].
  unfold sendDeltaPose, recordKeyframe, reportCounts.
  destruct (sendDeltaPoseMessage self); destruct status; cbn [fst snd andb];
    repeat match goal with
           | |- context [if ?b then _ else _] => destruct b eqn:?
           end;
    cbn [List.filter app fst snd is_IcpCall is_IcpResetTracking is_PosePublish
         is_SendTransform icp dropCount set_state];
    repeat split; try reflexivity; eexists; reflexivity.
Qed.



End Claims.

(** ** The ratio of good points *)

Lemma countGood_le_length pts : (countGood pts 0 <= length pts)%nat.
Proof. rewrite countGood_filter. apply List.filter_length_le. Qed.

(** *** Binary64 facts

    Rounding of a mantissa of 53 or 54 bits, conversion of an integer
    below 2^53, and the quotient of two such integers. *)



















Section Stream.

Context {TP ICP : Type}.
Context {EigenTP : TransformationParameters TP}.
Context {Icp : ICPSequence TP ICP}.

Implicit Types (self : CloudMatcher ICP) (cloudMsg : sensor_msgs.PointCloud2).



(** ** The warm-up *)

(** C5: an object built with startup drop count N swallows its first N
    clouds whatever they hold: each of them, the cloud without a good
    point included, has no effect at all (no log line, no pose, no ICP
    call, no broadcast) and only moves the counter.  The cloud after
    them is dropped no more and gets the treatment of lines 85-232.
    Without a good point it is answered by the error line and, in delta
    pose mode, the NaN pose.  With one, its counts are logged, ICP is
    called once on its matrix, the transform the ICP object then reports
    is broadcast under the stamp of the cloud and, in delta pose mode,
    one pose is published. *)
Theorem C5_warm_up (icp0 : ICP) (sendDelta : bool) (fixedFrameParam sensorFrameParam : string)
    (startupDropCountParam : Z) (warm : list sensor_msgs.PointCloud2)
    (next : sensor_msgs.PointCloud2) (rest : list sensor_msgs.PointCloud2) :
  let self0 :=
    CloudMatcher_new icp0 sendDelta fixedFrameParam sensorFrameParam startupDropCountParam in
  let N := startupDropCount self0 in
  Z.of_nat (length warm) = N ->
  let ready := set_dropCount self0 N in
  let points := sensor_msgs.points next in
  let stamp := sensor_msgs.stamp next in
  let call := icp_call icp0 (buildDP points) in
  let failed := match snd call with Returned => false | ConvergenceError _ => true end in
  let reported :=
    if failed && sendDelta then resetTracking (fst (fst call)) (snd (fst call))
    else fst (fst call) in
  let trace := snd (gotCloud ready next) in
  run self0 warm = (ready, List.map (fun _ => []) warm)
  /\ snd (run self0 (warm ++ next :: rest))
     = List.map (fun _ => []) warm ++ trace :: snd (run (fst (gotCloud ready next)) rest)
  /\ dropCount (fst (gotCloud ready next)) = N
  /\ (countGood points 0 = 0%nat ->
      gotCloud ready next
      = (ready,
         Log NoGoodPoints :: (if sendDelta then [PosePublish (nanPose stamp)] else [])))
  /\ (countGood points 0 <> 0%nat ->
      icp (fst (gotCloud ready next)) = reported
      /\ (exists later,
            trace = Log (GotPoints (length points) (countGood points 0)) :: later)
      /\ List.filter is_IcpCall trace = [IcpCall (buildDP points)]
      /\ List.filter is_SendTransform trace
         = [SendTransform
              {| tf.transform :=
                   {| tf.rotation := TP_quaternion (getTransform reported);
                      tf.origin := TP_translation (getTransform reported) |};
                 tf.stamp := stamp;
                 tf.frame_id := fixedFrameParam;
                 tf.child_frame_id := sensorFrameParam |}]
      /\ occurrences is_PosePublish trace = (if sendDelta then 1 else 0)%nat).
Proof.
  intros self0 N Hlen ready points stamp call failed reported trace.
  assert (Hwarm : run self0 warm = (ready, List.map (fun _ => []) warm)).
  { rewrite run_warm_up.
    - subst ready. cbn [dropCount self0 CloudMatcher_new]. rewrite Z.add_0_l, Hlen. reflexivity.
    - cbn. lia.
    - apply UInt32_of_int_range.
    - cbn [dropCount self0 CloudMatcher_new]. subst N. cbn [startupDropCount self0] in Hlen. lia. }
  assert (Hready : pastWarmUp ready).
  { unfold pastWarmUp. subst ready. cbn [dropCount startupDropCount set_dropCount].
    apply Z.ltb_irrefl. }
  split; [assumption | split; [|split; [|split]]].
  - rewrite run_app, Hwarm. cbn [fst snd run]. subst trace.
    destruct (gotCloud ready next) as [self1 effects]. cbn [fst snd].
    destruct (run self1 rest) as [self2 later]. reflexivity.
  - rewrite gotCloud_processed by assumption.
    pose proof (processCloud_counters ready next) as [Hd _]. rewrite Hd. reflexivity.
  - intros Hzero. rewrite gotCloud_processed by assumption.
    rewrite processCloud_empty by assumption. reflexivity.
  - intros Hgood.
    destruct (gotCloud_tracked ready next Hready Hgood)
      as (Hicp & _ & Hhead & Hcall & _ & Hpose & Hsent).
    cbv zeta in Hicp, Hhead, Hcall, Hpose, Hsent.
    split; [exact Hicp | split; [exact Hhead | split; [exact Hcall | split; [exact Hsent|]]]].
    subst trace. unfold occurrences. rewrite Hpose.
    change (sendDeltaPoseMessage ready) with sendDelta. destruct sendDelta; reflexivity.
Qed.


(** C10: the counter is zero in a new object and its bound never changes.
    After any sequence of clouds it lies between zero and the bound and
    equals the number of clouds seen, capped by the bound.  A cloud that
    finds it below the bound is dropped and moves it up by exactly one
    (the unsigned increment does not wrap).  Once it equals the bound the
    cloud at hand is processed, and so is every later one: the counter
    keeps that value after any further clouds. *)
Theorem C10_drop_counter (icp0 : ICP) (sendDelta : bool)
    (fixedFrameParam sensorFrameParam : string) (startupDropCountParam : Z)
    (clouds : list sensor_msgs.PointCloud2) (cloudMsg : sensor_msgs.PointCloud2) :
  let self0 :=
    CloudMatcher_new icp0 sendDelta fixedFrameParam sensorFrameParam startupDropCountParam in
  let self := fst (run self0 clouds) in
  dropCount self0 = 0
  /\ startupDropCount self = startupDropCount self0
  /\ 0 <= dropCount self <= startupDropCount self
  /\ dropCount self = Z.min (Z.of_nat (length clouds)) (startupDropCount self0)
  /\ (dropCount self < startupDropCount self ->
      gotCloud self cloudMsg = (set_dropCount self (dropCount self + 1), []))
  /\ (dropCount self = startupDropCount self ->
      gotCloud self cloudMsg = processCloud self cloudMsg
      /\ forall (later : list sensor_msgs.PointCloud2) (cloudMsg' : sensor_msgs.PointCloud2),
           let self' := fst (run self later) in
           dropCount self' = startupDropCount self'
           /\ gotCloud self' cloudMsg' = processCloud self' cloudMsg').
Proof.
  intros self0 self.
  assert (Hrange : UInt32.in_range (startupDropCount self0)) by apply UInt32_of_int_range.
  destruct (run_counter_bounds clouds self0) as (Hb & Hs & Hmin);
    [cbn; unfold UInt32.in_range in Hrange; cbn in Hrange; lia | assumption |].
  fold self in Hb, Hs, Hmin.
  split; [reflexivity | split; [assumption | split; [lia | split; [|split]]]].
  - rewrite Hmin. reflexivity.
  - intros Hlt. rewrite gotCloud_dropped by assumption.
    rewrite (UInt32_incr_below (dropCount self) (startupDropCount self));
      [reflexivity | lia | assumption | rewrite Hs; assumption].
  - intros Heq.
    assert (Hpast : pastWarmUp self) by (unfold pastWarmUp; rewrite Heq; apply Z.ltb_irrefl).
    split; [apply gotCloud_processed, Hpast|].
    intros later cloudMsg' self'.
    destruct (run_tracking later self Hpast) as [Hd' Hs'].
    fold self' in Hd', Hs'.
    assert (Heq' : dropCount self' = startupDropCount self') by congruence.
    split; [assumption|].
    apply gotCloud_processed. unfold pastWarmUp. rewrite Heq'. apply Z.ltb_irrefl.
Qed.

End Stream.

(** ** The scripted Registration keeps the contract *)

Lemma scripted_contract {TP : Type} {EigenTP : TransformationParameters TP} :
  RegistrationContract TP (Registration.State TP).
Proof.
  constructor; cbn [icp_call getTransform getDeltaTransform resetTracking Registration.scripted].
  - intros s dp s1 dp1 what H. unfold Registration.call in H.
    destruct (Registration.keyframe s); [|discriminate].
    destruct (Registration.script s) as [|[D ratio refresh|reason] later];
      inversion H; subst; reflexivity.
  - intros s dp s1 dp1 what H. unfold Registration.call in H.
    destruct (Registration.keyframe s); [|discriminate].
    destruct (Registration.script s) as [|[D ratio refresh|reason] later];
      inversion H; subst; reflexivity.
  - intros s dp. reflexivity.
  - intros s dp s1 dp1 H. unfold Registration.call in H.
    destruct (Registration.keyframe s).
    + destruct (Registration.script s) as [|[D ratio refresh|reason] later];
        inversion H; subst; reflexivity.
    + inversion H; subst; reflexivity.
Qed.

Lemma ZRigid_compose_identity_l (D : ZRigid.t) : ZRigid.compose ZRigid.identity D = D.
Proof.
  destruct D as [[a0 a1 a2] [b0 b1 b2] [c0 c1 c2] [t0 t1 t2]].
  unfold ZRigid.compose, ZRigid.row_times, ZRigid.dot, ZRigid.col0, ZRigid.col1, ZRigid.col2,
    ZRigid.identity.
  cbn [ZRigid.r0 ZRigid.r1 ZRigid.r2 ZRigid.tr ZRigid.v0 ZRigid.v1 ZRigid.v2].
  f_equal; f_equal; lia.
Qed.

(** ** The scenarios of the design text, replayed *)

(** A match that fails with the delta pose disabled: the error is caught,
    but the tracker is not reset and keeps its old keyframe. *)
Lemma C2_counterexample :
  pastWarmUp (Sample.node_failing false)
  /\ snd (icp_call (icp (Sample.node_failing false))
            (buildDP (sensor_msgs.points (Sample.cloud Sample.t1))))
     = ConvergenceError "no convergence"
  /\ occurrences is_IcpResetTracking
       (snd (gotCloud (Sample.node_failing false) (Sample.cloud Sample.t1))) = 0%nat
  /\ Registration.keyframe
       (icp (fst (gotCloud (Sample.node_failing false) (Sample.cloud Sample.t1))))
     = Registration.keyframe (icp (Sample.node_failing false))
  /\ Registration.keyframe
       (icp (fst (gotCloud (Sample.node_failing false) (Sample.cloud Sample.t1))))
     <> Some (buildDP (sensor_msgs.points (Sample.cloud Sample.t1))).
Proof.
  repeat split; try reflexivity.
  vm_compute. discriminate.
Qed.

Lemma C2_witness :
  pastWarmUp (Sample.node_failing true)
  /\ countGood (sensor_msgs.points (Sample.cloud Sample.t1)) 0 <> 0%nat
  /\ List.filter is_IcpResetTracking
       (snd (gotCloud (Sample.node_failing true) (Sample.cloud Sample.t1)))
     = [IcpResetTracking (buildDP (sensor_msgs.points (Sample.cloud Sample.t1)))]
  /\ List.filter is_PosePublish
       (snd (gotCloud (Sample.node_failing true) (Sample.cloud Sample.t1)))
     = [PosePublish (nanPose Sample.t1)].
Proof.
  assert (Hpast : pastWarmUp (Sample.node_failing true)) by reflexivity.
  assert (Hgood : countGood (sensor_msgs.points (Sample.cloud Sample.t1)) 0 <> 0%nat)
    by (vm_compute; discriminate).
  pose (r := icp_call (icp (Sample.node_failing true))
              (buildDP (sensor_msgs.points (Sample.cloud Sample.t1)))).
  assert (Hcall : r = (fst (fst r), snd (fst r), ConvergenceError "no convergence"))
    by reflexivity.
  destruct (C2_failure_recovery (Sample.node_failing true) (Sample.cloud Sample.t1)
              _ _ _ Hpast Hgood Hcall) as (_ & _ & _ & Hon & _ & _).
  destruct (Hon eq_refl) as (_ & Hreset & Hpose & _).
  split; [exact Hpast | split; [exact Hgood | split; [exact Hreset | exact Hpose]]].
Defined.


Lemma C4_witness :
  pastWarmUp Sample.node_fresh
  /\ countGood (sensor_msgs.points (Sample.dropouts Sample.t1)) 0 = 0%nat
  /\ occurrences is_IcpCall (snd (gotCloud Sample.node_fresh (Sample.dropouts Sample.t1))) = 0%nat
  /\ List.filter is_PosePublish (snd (gotCloud Sample.node_fresh (Sample.dropouts Sample.t1)))
     = [PosePublish (nanPose Sample.t1)].
Proof.
  assert (Hpast : pastWarmUp Sample.node_fresh) by reflexivity.
  assert (Hzero : countGood (sensor_msgs.points (Sample.dropouts Sample.t1)) 0 = 0%nat)
    by reflexivity.
  destruct (C4_empty_cloud Sample.node_fresh (Sample.dropouts Sample.t1) Hpast Hzero)
    as (_ & Hcall & _ & _ & _ & Hpose & _).
  split; [exact Hpast | split; [exact Hzero | split; [exact Hcall | exact Hpose]]].
Defined.


Lemma C6_witness :
  pastWarmUp Sample.node_converging
  /\ countGood (sensor_msgs.points (Sample.cloud Sample.t1)) 0 <> 0%nat
  /\ List.filter is_IcpCall (snd (gotCloud Sample.node_converging (Sample.cloud Sample.t1)))
     = [IcpCall (buildDP (sensor_msgs.points (Sample.cloud Sample.t1)))]
  /\ occurrences is_PartialImage (snd (gotCloud Sample.node_converging (Sample.cloud Sample.t1)))
     = 1%nat.
Proof.
  assert (Hpast : pastWarmUp Sample.node_converging) by reflexivity.
  assert (Hgood : countGood (sensor_msgs.points (Sample.cloud Sample.t1)) 0 <> 0%nat)
    by (vm_compute; discriminate).
  destruct (C6_registration_attempted_once Sample.node_converging (Sample.cloud Sample.t1)
              Hpast Hgood) as (Hcall & Hpartial).
  split; [exact Hpast | split; [exact Hgood | split; [exact Hcall | exact Hpartial]]].
Defined.


Lemma C8_witness :
  pastWarmUp Sample.node_converging
  /\ countGood (sensor_msgs.points (Sample.cloud Sample.t1)) 0 <> 0%nat
  /\ keyFrameCreatedAtLastCall
       (icp (fst (gotCloud Sample.node_converging (Sample.cloud Sample.t1)))) = true
  /\ List.filter is_PathPublish (snd (gotCloud Sample.node_converging (Sample.cloud Sample.t1)))
     = [PathPublish (path (fst (gotCloud Sample.node_converging (Sample.cloud Sample.t1))))].
Proof.
  assert (Hpast : pastWarmUp Sample.node_converging) by reflexivity.
  assert (Hgood : countGood (sensor_msgs.points (Sample.cloud Sample.t1)) 0 <> 0%nat)
    by (vm_compute; discriminate).
  destruct (C8_keyframe_event Sample.node_converging (Sample.cloud Sample.t1) Hpast Hgood)
    as (_ & Hyes & _).
  destruct (Hyes eq_refl) as (_ & Hpublished).
  split; [exact Hpast | split; [exact Hgood | split; [reflexivity | exact Hpublished]]].
Defined.



Lemma C10_witness :
  dropCount (fst (run Sample.node_warming [Sample.nothing Sample.t0])) = 1
  /\ gotCloud (fst (run Sample.node_warming [Sample.nothing Sample.t0]))
       (Sample.dropouts Sample.t1)
     = (set_dropCount (fst (run Sample.node_warming [Sample.nothing Sample.t0])) 2, [])
  /\ dropCount (fst (run Sample.node_warming
                       [Sample.nothing Sample.t0; Sample.dropouts Sample.t1])) = 2
  /\ dropCount (fst (run Sample.node_warming
                       [Sample.nothing Sample.t0; Sample.dropouts Sample.t1;
                        Sample.cloud Sample.t2; Sample.cloud Sample.t2])) = 2.
Proof.
  destruct (C10_drop_counter (Registration.initial []) true "/world" "/openni_rgb_optical_frame"
              2 [Sample.nothing Sample.t0] (Sample.dropouts Sample.t1))
    as (_ & _ & _ & Hone & Hdrop & _).
  destruct (C10_drop_counter (Registration.initial []) true "/world" "/openni_rgb_optical_frame"
              2 [Sample.nothing Sample.t0; Sample.dropouts Sample.t1] (Sample.cloud Sample.t2))
    as (_ & _ & _ & Htwo & _ & Hstay).
  destruct (Hstay eq_refl) as (_ & Hlater).
  destruct (Hlater [Sample.cloud Sample.t2; Sample.cloud Sample.t2] (Sample.cloud Sample.t2))
    as (Hkept & _).
  split; [exact Hone | split; [exact (Hdrop eq_refl) | split; [exact Htwo | exact Hkept]]].
Defined.



(** A cloud in which no point has three finite coordinates, yet whose
    two points both have an x that is not NaN: ICP is called and a
    transform is broadcast. *)
Lemma C4_counterexample :
  pastWarmUp Sample.node_converging
  /\ length (List.filter all_finite (sensor_msgs.points (Sample.halfBrokenCloud Sample.t1)))
     = 0%nat
  /\ countGood (sensor_msgs.points (Sample.halfBrokenCloud Sample.t1)) 0 = 2%nat
  /\ List.filter is_IcpCall
       (snd (gotCloud Sample.node_converging (Sample.halfBrokenCloud Sample.t1)))
     = [IcpCall (buildDP Sample.halfBroken)]
  /\ occurrences is_SendTransform
       (snd (gotCloud Sample.node_converging (Sample.halfBrokenCloud Sample.t1))) = 1%nat
  /\ occurrences is_IcpCall
       (snd (gotCloud Sample.node_converging (Sample.halfBrokenCloud Sample.t1))) <> 0%nat.
Proof.
  repeat split; try reflexivity. vm_compute. discriminate.
Qed.

Lemma C5_witness :
  Z.of_nat (length [Sample.nothing Sample.t0; Sample.dropouts Sample.t1])
  = startupDropCount Sample.node_warming
  /\ run Sample.node_warming [Sample.nothing Sample.t0; Sample.dropouts Sample.t1]
     = (set_dropCount Sample.node_warming 2, [[]; []])
  /\ countGood (sensor_msgs.points (Sample.cloud Sample.t2)) 0 <> 0%nat
  /\ List.filter is_IcpCall
       (snd (gotCloud (set_dropCount Sample.node_warming 2) (Sample.cloud Sample.t2)))
     = [IcpCall (buildDP (sensor_msgs.points (Sample.cloud Sample.t2)))]
  /\ occurrences is_PosePublish
       (snd (gotCloud (set_dropCount Sample.node_warming 2) (Sample.cloud Sample.t2)))
     = 1%nat.
Proof.
  assert (Hlen : Z.of_nat (length [Sample.nothing Sample.t0; Sample.dropouts Sample.t1])
                 = startupDropCount Sample.node_warming) by reflexivity.
  assert (Hgood : countGood (sensor_msgs.points (Sample.cloud Sample.t2)) 0 <> 0%nat)
    by (vm_compute; discriminate).
  destruct (C5_warm_up (Registration.initial []) true "/world" "/openni_rgb_optical_frame" 2
              [Sample.nothing Sample.t0; Sample.dropouts Sample.t1]
              (Sample.cloud Sample.t2) [] Hlen) as (Hrun & _ & _ & _ & Hnext).
  destruct (Hnext Hgood) as (_ & _ & Hcall & _ & Hpose).
  split; [exact Hlen | split; [exact Hrun | split; [exact Hgood | split;
    [exact Hcall | exact Hpose]]]].
Defined.





(** * Further properties of the node *)

(** ** The matrix handed to ICP *)

Lemma filter_good_idempotent pts :
  List.filter good (List.filter good pts) = List.filter good pts.
Proof.
  induction pts as [|p rest IH]; simpl; [reflexivity|].
  destruct (good p) eqn:Hp; simpl; [rewrite Hp, IH|]; auto.
Qed.

(** X1: whatever the cloud holds, every column of the matrix handed to
    ICP has four rows, a first row that is not NaN and a last row equal
    to 1; rows 1 and 2 are the y and z of the point as they came, NaN
    included. *)
Theorem features_columns_shape (pts : list pcl.PointXYZ) :
  Forall (fun col =>
            exists p, In p pts /\ col = [pcl.x p; pcl.y p; pcl.z p; Scalar_one]
                      /\ isnan (pcl.x p) = false)
         (features (buildDP pts)).
Proof.
  rewrite buildDP_features. apply List.Forall_forall. intros col Hin.
  apply List.in_map_iff in Hin. destruct Hin as [p [<- Hp]].
  apply List.filter_In in Hp. destruct Hp as [Hin Hgood].
  exists p. split; [assumption | split; [reflexivity|]].
  unfold good in Hgood. destruct (isnan (pcl.x p)); [discriminate | reflexivity].
Qed.

(** X2: the matrix of a cloud cut in two is the matrix of the first part
    followed by the matrix of the second, and removing the points with a
    NaN x beforehand changes nothing. *)
Theorem buildDP_concatenation (front back : list pcl.PointXYZ) :
  features (buildDP (front ++ back)) = features (buildDP front) ++ features (buildDP back)
  /\ buildDP (List.filter good front) = buildDP front
  /\ countGood (front ++ back) 0 = (countGood front 0 + countGood back 0)%nat.
Proof.
  split; [|split].
  - rewrite !buildDP_features, List.filter_app, List.map_app. reflexivity.
  - assert (H : features (buildDP (List.filter good front)) = features (buildDP front))
      by (rewrite !buildDP_features, filter_good_idempotent; reflexivity).
    unfold buildDP in *. cbn [features] in H. rewrite H. reflexivity.
  - rewrite !countGood_filter, List.filter_app, length_app. reflexivity.
Qed.

(** ** One cloud, any state *)

Section Frame.

Context {TP ICP : Type}.
Context {EigenTP : TransformationParameters TP}.
Context {Icp : ICPSequence TP ICP}.

Implicit Types (self : CloudMatcher ICP) (cloudMsg : sensor_msgs.PointCloud2).

Lemma hasGood_true cloudMsg :
  hasGood cloudMsg = true <-> countGood (sensor_msgs.points cloudMsg) 0 <> 0%nat.
Proof.
  unfold hasGood. destruct (Nat.eqb_spec (countGood (sensor_msgs.points cloudMsg) 0) 0);
    simpl; split; intros; congruence.
Qed.

Lemma hasGood_false cloudMsg :
  hasGood cloudMsg = false <-> countGood (sensor_msgs.points cloudMsg) 0 = 0%nat.
Proof.
  unfold hasGood. destruct (Nat.eqb_spec (countGood (sensor_msgs.points cloudMsg) 0) 0);
    simpl; split; intros; congruence.
Qed.

(** X3: in any state and for any cloud, the callback broadcasts a
    transform exactly when it has called ICP, and it does either at most
    once: not at all while warming up or for a cloud without a good
    point, once otherwise. *)
Theorem broadcast_follows_icp_call self cloudMsg :
  let trace := snd (gotCloud self cloudMsg) in
  occurrences is_IcpCall trace
  = (if (dropCount self <? startupDropCount self)%Z then 0
     else if hasGood cloudMsg then 1 else 0)%nat
  /\ occurrences is_SendTransform trace = occurrences is_IcpCall trace.
Proof.
  intros trace. subst trace. unfold gotCloud.
  destruct (dropCount self <? startupDropCount self)%Z; [split; reflexivity|].
  destruct (hasGood cloudMsg) eqn:Hg.
  - apply hasGood_true in Hg.
    destruct (icp_call (icp self) (buildDP (sensor_msgs.points cloudMsg)))
      as [[icp1 dp1] status] eqn:Hcall.
    rewrite (processCloud_nonempty _ _ _ _ _ Hg Hcall). cbv zeta. cbn [fst snd].
    stages self status; split; reflexivity.
  - apply hasGood_false in Hg. rewrite processCloud_empty by assumption.
    unfold emptyCloud, occurrences. cbn [snd].
    destruct (sendDeltaPoseMessage self); split; reflexivity.
Qed.

(** X4: in delta pose mode every cloud past the warm-up, good points or
    not, converged or not, makes the node publish exactly one pose, and
    that pose bears the stamp of the cloud; for a cloud without a good
    point it is the all-NaN pose. *)
Theorem delta_pose_per_cloud self cloudMsg :
  pastWarmUp self ->
  sendDeltaPoseMessage self = true ->
  exists pose,
    List.filter is_PosePublish (snd (gotCloud self cloudMsg)) = [PosePublish pose]
    /\ ros.stamp (geometry_msgs.pwc_header pose) = sensor_msgs.stamp cloudMsg
    /\ (hasGood cloudMsg = false -> allNaN pose = true).
Proof.
  intros Hpast Hsend. rewrite gotCloud_processed by assumption.
  destruct (hasGood cloudMsg) eqn:Hg.
  - apply hasGood_true in Hg.
    destruct (icp_call (icp self) (buildDP (sensor_msgs.points cloudMsg)))
      as [[icp1 dp1] status] eqn:Hcall.
    rewrite (processCloud_nonempty _ _ _ _ _ Hg Hcall). cbv zeta. cbn [fst snd].
    unfold sendDeltaPose, recordKeyframe, reportCounts. rewrite Hsend.
    destruct status; cbn [fst snd];
      repeat match goal with
             | |- context [if ?b then _ else _] => destruct b eqn:?
             end;
      cbn [List.filter app is_PosePublish];
      eexists; (split; [reflexivity | split; [reflexivity | discriminate]]).
  - apply hasGood_false in Hg. rewrite processCloud_empty by assumption.
    unfold emptyCloud. rewrite Hsend. cbn [snd List.filter is_PosePublish].
    eexists; split; [reflexivity | split; reflexivity].
Qed.


(** X5: a partial image line is only ever logged past the warm-up, with
    the good count of the cloud at hand, which is then between 1 and
    9999, and with the value of [100 - imageRatio*100.0] computed in
    binary64 from that count and the number of points. *)
Theorem partial_image_report self cloudMsg (missing : Scalar) (received : nat) :
  In (Log (PartialImage missing received)) (snd (gotCloud self cloudMsg)) ->
  let total := length (sensor_msgs.points cloudMsg) in
  pastWarmUp self
  /\ received = countGood (sensor_msgs.points cloudMsg) 0
  /\ (1 <= received <= total)%nat
  /\ Z.of_nat received < 10000
  /\ missing
     = SFsub 53 1024 b64_hundred
         (SFmul 53 1024 (SFdiv 53 1024 (b64_of_size received) (b64_of_size total))
            b64_hundred).
Proof.
  unfold gotCloud, pastWarmUp.
  destruct (dropCount self <? startupDropCount self)%Z; [intros []|].
  destruct (hasGood cloudMsg) eqn:Hg.
  - apply hasGood_true in Hg.
    destruct (icp_call (icp self) (buildDP (sensor_msgs.points cloudMsg)))
      as [[icp1 dp1] status] eqn:Hcall.
    rewrite (processCloud_nonempty _ _ _ _ _ Hg Hcall). cbv zeta. cbn [fst snd].
    pose proof (countGood_le_length (sensor_msgs.points cloudMsg)) as Hle.
    unfold sendDeltaPose, recordKeyframe, reportCounts, missingPercent, imageRatio.
    destruct (sendDeltaPoseMessage self); destruct status; cbn [fst snd];
      repeat match goal with
             | |- context [if ?b then _ else _] => destruct b eqn:?
             end;
      cbn [In app]; intros H;
      repeat (destruct H as [H|H]; try discriminate H); try contradiction;
      injection H as <- <-;
      (split; [reflexivity | split; [reflexivity | split; [lia | split; [lia | reflexivity]]]]).
  - apply hasGood_false in Hg. rewrite processCloud_empty by assumption.
    unfold emptyCloud. cbn [snd]. destruct (sendDeltaPoseMessage self); cbn [In];
      intros H; repeat (destruct H as [H|H]; try discriminate H); contradiction.
Qed.

End Frame.

(** ** A stream of clouds *)

Lemma occurrences_concat_cons f (t : list Effect) (ts : list (list Effect)) :
  occurrences f (List.concat (t :: ts))
  = (occurrences f t + occurrences f (List.concat ts))%nat.
Proof. simpl. apply occurrences_app. Qed.

Lemma concat_silent {A : Type} (l : list A) :
  List.concat (List.map (fun _ => @nil Effect) l) = [].
Proof. induction l; simpl; [reflexivity | assumption]. Qed.

Section Stream2.

Context {TP ICP : Type}.
Context {EigenTP : TransformationParameters TP}.
Context {Icp : ICPSequence TP ICP}.

Implicit Types (self : CloudMatcher ICP) (cloudMsg : sensor_msgs.PointCloud2).

(** The constant members stay what the constructor made them. *)
Lemma gotCloud_config self cloudMsg :
  sendDeltaPoseMessage (fst (gotCloud self cloudMsg)) = sendDeltaPoseMessage self
  /\ fixedFrame (fst (gotCloud self cloudMsg)) = fixedFrame self
  /\ sensorFrame (fst (gotCloud self cloudMsg)) = sensorFrame self.
Proof.
  unfold gotCloud. destruct (dropCount self <? startupDropCount self)%Z;
    [repeat split; reflexivity|].
  unfold processCloud.
  destruct (countGood (sensor_msgs.points cloudMsg) 0 =? 0)%nat; [repeat split; reflexivity|].
  destruct (icp_call _ _) as [[icp1 dp1] status].
  destruct (sendDeltaPose _ _ _ _ _) as [icp2 deltaEffects].
  destruct (recordKeyframe _ _ _) as [path' keyframeEffects].
  repeat split; reflexivity.
Qed.

Lemma processCloud_counts self cloudMsg :
  let trace := snd (processCloud self cloudMsg) in
  occurrences is_IcpCall trace = (if hasGood cloudMsg then 1 else 0)%nat
  /\ occurrences is_SendTransform trace = (if hasGood cloudMsg then 1 else 0)%nat
  /\ occurrences is_PosePublish trace = (if sendDeltaPoseMessage self then 1 else 0)%nat
  /\ (occurrences is_IcpResetTracking trace <= if sendDeltaPoseMessage self then 1 else 0)%nat.
Proof.
  intros trace. subst trace.
  destruct (hasGood cloudMsg) eqn:Hg.
  - apply hasGood_true in Hg.
    destruct (icp_call (icp self) (buildDP (sensor_msgs.points cloudMsg)))
      as [[icp1 dp1] status] eqn:Hcall.
    rewrite (processCloud_nonempty _ _ _ _ _ Hg Hcall). cbv zeta. cbn [fst snd].
    stages self status; repeat split; try reflexivity; lia.
  - apply hasGood_false in Hg. rewrite processCloud_empty by assumption.
    unfold emptyCloud, occurrences. cbn [snd].
    destruct (sendDeltaPoseMessage self); repeat split; cbn; lia.
Qed.

(** Past the warm-up the counts over a stream are sums over its clouds. *)
Lemma run_tracking_counts : forall clouds self,
  pastWarmUp self ->
  let trace := List.concat (snd (run self clouds)) in
  occurrences is_IcpCall trace = length (List.filter hasGood clouds)
  /\ occurrences is_SendTransform trace = length (List.filter hasGood clouds)
  /\ occurrences is_PosePublish trace
     = (if sendDeltaPoseMessage self then length clouds else 0)%nat.
Proof.
  induction clouds as [|c rest IH]; intros self Hpast trace; subst trace.
  - cbn. destruct (sendDeltaPoseMessage self); repeat split; reflexivity.
  - cbn [run].
    pose proof (gotCloud_config self c) as (Hsend & _ & _).
    rewrite gotCloud_processed in * by assumption.
    pose proof (processCloud_counters self c) as [Hd Hs].
    pose proof (processCloud_counts self c) as (H1 & H2 & H3 & _). cbv zeta in H1, H2, H3.
    destruct (processCloud self c) as [self1 effects]. cbn [fst snd] in *.
    assert (Hpast1 : pastWarmUp self1) by (unfold pastWarmUp in *; congruence).
    specialize (IH self1 Hpast1). cbv zeta in IH. destruct IH as (I1 & I2 & I3).
    destruct (run self1 rest) as [self2 later]. cbn [snd] in *.
    rewrite !occurrences_concat_cons, H1, H2, H3, I1, I2, I3, Hsend.
    cbn [List.filter length].
    destruct (hasGood c), (sendDeltaPoseMessage self); cbn [length]; repeat split; lia.
Qed.

(** X6: a node fresh from its constructor, fed any stream of clouds,
    calls ICP once for each cloud that comes after the dropped ones and
    has a good point, broadcasts as many transforms, and publishes one
    pose per cloud after the dropped ones in delta pose mode and none at
    all otherwise. *)
Theorem counts_over_a_stream (icp0 : ICP) (sendDelta : bool)
    (fixedFrameParam sensorFrameParam : string) (startupDropCountParam : Z)
    (clouds : list sensor_msgs.PointCloud2) :
  let self0 :=
    CloudMatcher_new icp0 sendDelta fixedFrameParam sensorFrameParam startupDropCountParam in
  let processed := drop (Z.to_nat (startupDropCount self0)) clouds in
  let trace := List.concat (snd (run self0 clouds)) in
  occurrences is_IcpCall trace = length (List.filter hasGood processed)
  /\ occurrences is_SendTransform trace = length (List.filter hasGood processed)
  /\ occurrences is_PosePublish trace = (if sendDelta then length processed else 0)%nat.
Proof.
  intros self0 processed trace. subst processed trace.
  set (n := Z.to_nat (startupDropCount self0)).
  assert (Hrange : UInt32.in_range (startupDropCount self0)) by apply UInt32_of_int_range.
  assert (Hlen : (length (take n clouds) <= n)%nat) by (rewrite length_take; lia).
  assert (Hrun : List.concat (snd (run self0 clouds))
                 = List.concat
                     (snd (run (set_dropCount self0
                                  (dropCount self0 + Z.of_nat (length (take n clouds))))
                             (drop n clouds)))).
  { transitivity (List.concat (snd (run self0 (take n clouds ++ drop n clouds))));
      [rewrite take_drop; reflexivity|].
    rewrite run_app. cbn [snd].
    rewrite (run_warm_up (take n clouds) self0);
      [| cbn; lia | assumption
       | cbn [dropCount self0 CloudMatcher_new]; unfold UInt32.in_range in Hrange; lia].
    cbn [fst snd]. rewrite List.concat_app, concat_silent. reflexivity. }
  rewrite Hrun. clear Hrun.
  destruct (drop n clouds) as [|c rest] eqn:Hdrop.
  - cbn. destruct sendDelta; repeat split; reflexivity.
  - assert (Hfull : length (take n clouds) = n).
    { rewrite length_take. apply Nat.min_l.
      destruct (Nat.le_gt_cases n (length clouds)) as [|Hshort]; [assumption|].
      rewrite drop_ge in Hdrop by lia. discriminate. }
    apply (run_tracking_counts (c :: rest)).
    unfold pastWarmUp. cbn [dropCount startupDropCount set_dropCount self0 CloudMatcher_new].
    rewrite Hfull. subst n. rewrite Z2Nat.id by (unfold UInt32.in_range in Hrange; lia).
    apply Z.ltb_irrefl.
Qed.

Lemma gotCloud_quiet_without_delta self cloudMsg :
  sendDeltaPoseMessage self = false ->
  occurrences is_PosePublish (snd (gotCloud self cloudMsg)) = 0%nat
  /\ occurrences is_IcpResetTracking (snd (gotCloud self cloudMsg)) = 0%nat.
Proof.
  intros Hsend. unfold gotCloud.
  destruct (dropCount self <? startupDropCount self)%Z; [split; reflexivity|].
  pose proof (processCloud_counts self cloudMsg) as (_ & _ & H3 & H4).
  cbv zeta in H3, H4. rewrite Hsend in H3, H4. split; lia.
Qed.

(** X7: a node that is not in delta pose mode never publishes a pose and
    never resets the tracker, in whatever state it is and whatever
    clouds follow, failed matches included. *)
Theorem no_pose_outside_delta_mode : forall (clouds : list sensor_msgs.PointCloud2) self,
  sendDeltaPoseMessage self = false ->
  occurrences is_PosePublish (List.concat (snd (run self clouds))) = 0%nat
  /\ occurrences is_IcpResetTracking (List.concat (snd (run self clouds))) = 0%nat.
Proof.
  induction clouds as [|c rest IH]; intros self Hsend.
  - split; reflexivity.
  - cbn [run].
    pose proof (gotCloud_config self c) as (Hkeep & _ & _).
    pose proof (gotCloud_quiet_without_delta self c Hsend) as [H1 H2].
    destruct (gotCloud self c) as [self1 effects]. cbn [fst snd] in *.
    assert (Hsend1 : sendDeltaPoseMessage self1 = false) by congruence.
    specialize (IH self1 Hsend1). destruct IH as [I1 I2].
    destruct (run self1 rest) as [self2 later]. cbn [snd] in *.
    rewrite !occurrences_concat_cons, H1, H2, I1, I2. split; reflexivity.
Qed.

End Stream2.

(** ** The path and the broadcasts *)

Section Outputs.

Context {TP ICP : Type}.
Context {EigenTP : TransformationParameters TP}.
Context {Icp : ICPSequence TP ICP}.

Implicit Types (self : CloudMatcher ICP) (cloudMsg : sensor_msgs.PointCloud2).

Lemma gotCloud_path self cloudMsg :
  exists added,
    nav_msgs.poses (path (fst (gotCloud self cloudMsg)))
    = nav_msgs.poses (path self) ++ added
    /\ nav_msgs.frame_id (path (fst (gotCloud self cloudMsg)))
       = nav_msgs.frame_id (path self)
    /\ length added = occurrences is_PathPublish (snd (gotCloud self cloudMsg))
    /\ Forall (fun p => geometry_msgs.header p = keyframeHeader self) added.
Proof.
  unfold gotCloud. destruct (dropCount self <? startupDropCount self)%Z.
  { exists []. rewrite app_nil_r. repeat split; constructor. }
  destruct (hasGood cloudMsg) eqn:Hg.
  - apply hasGood_true in Hg.
    destruct (icp_call (icp self) (buildDP (sensor_msgs.points cloudMsg)))
      as [[icp1 dp1] status] eqn:Hcall.
    rewrite (processCloud_nonempty _ _ _ _ _ Hg Hcall). cbv zeta. cbn [fst snd].
    stages self status; cbn [path set_state nav_msgs.poses nav_msgs.frame_id];
      first [ exists []; rewrite app_nil_r; repeat split; constructor
            | eexists [_]; repeat split; repeat constructor ].
  - apply hasGood_false in Hg. rewrite processCloud_empty by assumption.
    exists []. rewrite app_nil_r. unfold emptyCloud, occurrences. cbn [fst snd].
    destruct (sendDeltaPoseMessage self); repeat split; constructor.
Qed.

(** X8: over any stream of clouds the path only grows at its end and
    keeps its frame; it gains exactly one pose per publication of the
    path, and every pose it gains names the sensor frame and carries the
    default zero stamp, whatever the stamp of its cloud. *)
Theorem path_append_only : forall (clouds : list sensor_msgs.PointCloud2) self,
  exists added,
    nav_msgs.poses (path (fst (run self clouds))) = nav_msgs.poses (path self) ++ added
    /\ nav_msgs.frame_id (path (fst (run self clouds))) = nav_msgs.frame_id (path self)
    /\ length added = occurrences is_PathPublish (List.concat (snd (run self clouds)))
    /\ Forall (fun p => geometry_msgs.header p = keyframeHeader self) added.
Proof.
  induction clouds as [|c rest IH]; intros self.
  - exists []. rewrite app_nil_r. repeat split; constructor.
  - cbn [run].
    destruct (gotCloud_path self c) as (added1 & Hp1 & Hf1 & Hl1 & Hh1).
    pose proof (gotCloud_config self c) as (_ & _ & Hsensor).
    destruct (gotCloud self c) as [self1 effects]. cbn [fst snd] in *.
    destruct (IH self1) as (added2 & Hp2 & Hf2 & Hl2 & Hh2).
    destruct (run self1 rest) as [self2 later]. cbn [fst snd] in *.
    exists (added1 ++ added2). split; [|split; [|split]].
    + rewrite Hp2, Hp1, <- app_assoc. reflexivity.
    + congruence.
    + rewrite length_app, occurrences_concat_cons. lia.
    + apply List.Forall_app. split; [assumption|].
      unfold keyframeHeader in *. rewrite <- Hsensor. assumption.
Qed.

Lemma gotCloud_broadcast self cloudMsg t :
  In (SendTransform t) (snd (gotCloud self cloudMsg)) ->
  tf.frame_id t = fixedFrame self
  /\ tf.child_frame_id t = sensorFrame self
  /\ tf.stamp t = sensor_msgs.stamp cloudMsg.
Proof.
  unfold gotCloud. destruct (dropCount self <? startupDropCount self)%Z; [intros []|].
  destruct (hasGood cloudMsg) eqn:Hg.
  - apply hasGood_true in Hg.
    destruct (icp_call (icp self) (buildDP (sensor_msgs.points cloudMsg)))
      as [[icp1 dp1] status] eqn:Hcall.
    rewrite (processCloud_nonempty _ _ _ _ _ Hg Hcall). cbv zeta. cbn [fst snd].
    unfold sendDeltaPose, recordKeyframe, reportCounts.
    destruct (sendDeltaPoseMessage self); destruct status; cbn [fst snd];
      repeat match goal with
             | |- context [if ?b then _ else _] => destruct b eqn:?
             end;
      cbn [In app]; intros H;
      repeat (destruct H as [H|H]; try discriminate H); try contradiction;
      injection H as <-; repeat split; reflexivity.
  - apply hasGood_false in Hg. rewrite processCloud_empty by assumption.
    unfold emptyCloud. cbn [snd]. destruct (sendDeltaPoseMessage self); cbn [In];
      intros H; repeat (destruct H as [H|H]; try discriminate H); contradiction.
Qed.

(** X9: every transform the node ever broadcasts goes from the fixed
    frame to the sensor frame it was constructed with and bears the
    stamp of one of the clouds it was given. *)
Theorem broadcasts_are_well_labelled :
  forall (clouds : list sensor_msgs.PointCloud2) self (t : tf.StampedTransform),
  In (SendTransform t) (List.concat (snd (run self clouds))) ->
  tf.frame_id t = fixedFrame self
  /\ tf.child_frame_id t = sensorFrame self
  /\ In (tf.stamp t) (List.map sensor_msgs.stamp clouds).
Proof.
  induction clouds as [|c rest IH]; intros self t.
  - intros [].
  - cbn [run].
    pose proof (gotCloud_broadcast self c t) as Hhere.
    pose proof (gotCloud_config self c) as (_ & Hfixed & Hsensor).
    destruct (gotCloud self c) as [self1 effects]. cbn [fst snd] in *.
    specialize (IH self1 t).
    destruct (run self1 rest) as [self2 later]. cbn [fst snd] in *.
    cbn [List.concat]. intros Hin. apply List.in_app_or in Hin.
    destruct Hin as [Hin | Hin].
    + destruct (Hhere Hin) as (H1 & H2 & H3).
      repeat split; try assumption. left. symmetry. assumption.
    + destruct (IH Hin) as (H1 & H2 & H3).
      repeat split; try congruence. right. assumption.
Qed.

(** X10: for a cloud with a good point past the warm-up the effects come
    in a fixed order: log lines only, then the ICP call, then what
    concerns the delta pose (log lines, the reset, the pose), then what
    concerns the path (a log line and its publication), and the
    transform broadcast last. *)
Theorem effects_in_order self cloudMsg :
  pastWarmUp self ->
  countGood (sensor_msgs.points cloudMsg) 0 <> 0%nat ->
  exists logs delta keyframe t,
    snd (gotCloud self cloudMsg)
    = logs ++ [IcpCall (buildDP (sensor_msgs.points cloudMsg))] ++ delta ++ keyframe
      ++ [SendTransform t]
    /\ forallb is_Log logs = true
    /\ forallb (fun e => is_Log e || is_IcpResetTracking e || is_PosePublish e) delta = true
    /\ forallb (fun e => is_Log e || is_PathPublish e) keyframe = true.
Proof.
  intros Hpast Hgood. rewrite gotCloud_processed by assumption.
  destruct (icp_call (icp self) (buildDP (sensor_msgs.points cloudMsg)))
    as [[icp1 dp1] status] eqn:Hcall.
  rewrite (processCloud_nonempty _ _ _ _ _ Hgood Hcall). cbv zeta. cbn [fst snd].
  eexists (reportCounts _ _), (_ :: snd (sendDeltaPose _ _ _ _ _)),
    (snd (recordKeyframe _ _ _)), _.
  split; [reflexivity|].
  unfold sendDeltaPose, recordKeyframe, reportCounts.
  destruct (sendDeltaPoseMessage self); destruct status; cbn [fst snd];
    repeat match goal with
           | |- context [if ?b then _ else _] => destruct b eqn:?
           end;
    repeat split; reflexivity.
Qed.

End Outputs.

(** ** Start-up *)

Lemma scanArgs_spec args flag :
  scanArgs args flag = flag || existsb (fun arg => String.eqb arg "--senddeltapose") args.
Proof.
  revert flag. induction args as [|arg rest IH]; intros flag; simpl.
  - rewrite orb_false_r. reflexivity.
  - rewrite IH. destruct (String.eqb arg "--senddeltapose"), flag; reflexivity.
Qed.

Lemma UInt32_of_int_negative v :
  - 2 ^ 31 <= v < 0 -> UInt32.of_int v = v + 2 ^ 32.
Proof.
  intros Hv. unfold UInt32.of_int, UInt32.modulus. symmetry.
  apply (Z.mod_unique v (2 ^ 32) (-1) (v + 2 ^ 32)); lia.
Qed.

Section StartupFacts.

Context {TP ICP : Type}.
Context {EigenTP : TransformationParameters TP}.
Context {Icp : ICPSequence TP ICP}.
Context {Chain : ICPChainCreation ICP}.
Context {Params : ParamServer}.

Lemma CloudMatcher_ctor_object statFilePrefix sendDelta :
  fst (CloudMatcher_ctor statFilePrefix sendDelta)
  = CloudMatcher_new (populateParameters (ICPSequence_new 3 statFilePrefix)) sendDelta
      (fst (getParam param_get_string PString "fixedFrame" "/world"))
      (fst (getParam param_get_string PString "sensorFrame" "/openni_rgb_optical_frame"))
      (fst (getParam param_get_int PInt "startupDropCount" 0)).
Proof.
  unfold CloudMatcher_ctor.
  destruct (getParam param_get_string PString "fixedFrame" "/world").
  destruct (getParam param_get_string PString "sensorFrame" "/openni_rgb_optical_frame").
  destruct (getParam param_get_int PInt "startupDropCount" 0).
  destruct (getParam param_get_string PString "cloudTopic" "/camera/rgb/points").
  destruct (getParam param_get_string PString "path" "/tracker_path").
  reflexivity.
Qed.

Lemma run_quiet_without_delta : forall (clouds : list sensor_msgs.PointCloud2)
    (self : CloudMatcher ICP),
  sendDeltaPoseMessage self = false ->
  Forall (fun effects =>
            occurrences is_PosePublish effects = 0%nat
            /\ occurrences is_IcpResetTracking effects = 0%nat)
         (snd (run self clouds)).
Proof.
  induction clouds as [|c rest IH]; intros self Hsend; [constructor|].
  cbn [run].
  pose proof (gotCloud_config self c) as (Hkeep & _ & _).
  pose proof (gotCloud_quiet_without_delta self c Hsend) as Hquiet.
  destruct (gotCloud self c) as [self1 effects]. cbn [fst snd] in *.
  assert (Hsend1 : sendDeltaPoseMessage self1 = false) by congruence.
  specialize (IH self1 Hsend1).
  destruct (run self1 rest) as [self2 later]. cbn [snd] in *.
  constructor; assumption.
Qed.

(** X11: whatever the parameter server holds, the constructor itself
    (leaving aside what populateParameters does inside) reads exactly
    the parameters fixedFrame, sensorFrame, startupDropCount,
    cloudTopic and path, in this order, and deltaPoseTopic after them
    only in delta pose mode, logging one line for each; it subscribes
    once and advertises the path once, each with a queue of one, and
    advertises the pose topic, with a queue of three, only in delta pose
    mode. *)
Theorem constructor_reads_and_advertises (statFilePrefix : string) (sendDelta : bool) :
  let effects := snd (CloudMatcher_ctor statFilePrefix sendDelta) in
  omap parameterOf effects
  = ["fixedFrame"; "sensorFrame"; "startupDropCount"; "cloudTopic"; "path"]
    ++ (if sendDelta then ["deltaPoseTopic"] else [])
  /\ (exists topic, List.filter is_Subscribe effects = [Subscribe topic 1])
  /\ (exists topic, List.filter is_AdvertisePath effects = [AdvertisePath topic 1])
  /\ (if sendDelta
      then exists topic, List.filter is_AdvertisePose effects = [AdvertisePose topic 3]
      else List.filter is_AdvertisePose effects = []).
Proof.
  intros effects. subst effects. unfold CloudMatcher_ctor, getParam.
  destruct (param_get_string ("~" +:+ "fixedFrame"));
    destruct (param_get_string ("~" +:+ "sensorFrame"));
    destruct (param_get_int ("~" +:+ "startupDropCount"));
    destruct (param_get_string ("~" +:+ "cloudTopic"));
    destruct (param_get_string ("~" +:+ "path"));
    destruct sendDelta;
    try destruct (param_get_string ("~" +:+ "deltaPoseTopic"));
    cbn [snd app omap list_omap parameterOf List.filter is_Subscribe is_AdvertisePath
         is_AdvertisePose];
    repeat split; try reflexivity; eexists; reflexivity.
Qed.

(** X12: when no parameter is set the constructor falls back on its
    defaults: the node tracks /openni_rgb_optical_frame in /world with
    an empty path in /world, drops no cloud, listens on
    /camera/rgb/points, publishes the path on /tracker_path and, in
    delta pose mode, the pose on /openni_delta_pose; it warns once per
    parameter and finds none; the first cloud is processed at once. *)
Theorem constructor_defaults (statFilePrefix : string) (sendDelta : bool) :
  (forall key, param_get_string key = None) ->
  (forall key, param_get_int key = None) ->
  let self0 := fst (CloudMatcher_ctor statFilePrefix sendDelta) in
  let effects := snd (CloudMatcher_ctor statFilePrefix sendDelta) in
  self0 = CloudMatcher_new (populateParameters (ICPSequence_new 3 statFilePrefix)) sendDelta
            "/world" "/openni_rgb_optical_frame" 0
  /\ startupDropCount self0 = 0
  /\ path self0 = {| nav_msgs.frame_id := "/world"; nav_msgs.poses := [] |}
  /\ List.filter is_Subscribe effects = [Subscribe "/camera/rgb/points" 1]
  /\ List.filter is_AdvertisePath effects = [AdvertisePath "/tracker_path" 1]
  /\ List.filter is_AdvertisePose effects
     = (if sendDelta then [AdvertisePose "/openni_delta_pose" 3] else [])
  /\ length (List.filter is_CannotFindParameter effects)
     = length (omap parameterOf effects)
  /\ forall cloudMsg, gotCloud self0 cloudMsg = processCloud self0 cloudMsg.
Proof.
  intros Hs Hi self0 effects. subst self0 effects.
  unfold CloudMatcher_ctor, getParam. rewrite !Hs, Hi.
  destruct sendDelta; repeat split; reflexivity.
Qed.

(** X13: a negative startupDropCount parameter is not read as zero: the
    conversion to unsigned turns v into v + 2^32, so that the node
    swallows every cloud of any stream shorter than 2^31 without a
    single effect. *)
Theorem negative_drop_count_mutes_the_node (statFilePrefix : string) (sendDelta : bool)
    (v : Z) (clouds : list sensor_msgs.PointCloud2) :
  param_get_int "~startupDropCount" = Some v ->
  - 2 ^ 31 <= v < 0 ->
  Z.of_nat (length clouds) < 2 ^ 31 ->
  let self0 := fst (CloudMatcher_ctor statFilePrefix sendDelta) in
  startupDropCount self0 = v + 2 ^ 32
  /\ snd (run self0 clouds) = List.map (fun _ => []) clouds
  /\ icp (fst (run self0 clouds)) = icp self0
  /\ path (fst (run self0 clouds)) = path self0.
Proof.
  intros Hget Hv Hlen self0. subst self0.
  rewrite CloudMatcher_ctor_object.
  assert (Hparam : fst (getParam param_get_int PInt "startupDropCount" 0) = v).
  { unfold getParam. change ("~" +:+ "startupDropCount") with "~startupDropCount".
    rewrite Hget. reflexivity. }
  rewrite Hparam.
  set (self0 := CloudMatcher_new _ _ _ _ v).
  assert (Hbound : startupDropCount self0 = v + 2 ^ 32)
    by (apply UInt32_of_int_negative; assumption).
  rewrite (run_warm_up clouds self0).
  - cbn [fst snd]. repeat split; assumption || reflexivity.
  - cbn. lia.
  - apply UInt32_of_int_range.
  - rewrite Hbound. cbn [dropCount self0 CloudMatcher_new]. lia.
Qed.

Lemma constructor_sendDelta statFilePrefix sendDelta :
  sendDeltaPoseMessage (fst (CloudMatcher_ctor statFilePrefix sendDelta)) = sendDelta
  /\ (if sendDelta
      then exists topic,
             List.filter is_AdvertisePose (snd (CloudMatcher_ctor statFilePrefix sendDelta))
             = [AdvertisePose topic 3]
      else List.filter is_AdvertisePose (snd (CloudMatcher_ctor statFilePrefix sendDelta))
           = []).
Proof.
  split; [rewrite CloudMatcher_ctor_object; reflexivity|].
  unfold CloudMatcher_ctor, getParam.
  destruct (param_get_string ("~" +:+ "fixedFrame"));
    destruct (param_get_string ("~" +:+ "sensorFrame"));
    destruct (param_get_int ("~" +:+ "startupDropCount"));
    destruct (param_get_string ("~" +:+ "cloudTopic"));
    destruct (param_get_string ("~" +:+ "path"));
    destruct sendDelta;
    try destruct (param_get_string ("~" +:+ "deltaPoseTopic"));
    cbn [snd app List.filter is_AdvertisePose];
    try reflexivity; eexists; reflexivity.
Qed.

(** X14: the node is in delta pose mode exactly when --senddeltapose is
    among the arguments after the program name, and that is exactly when
    it advertises the pose topic; without the flag it never publishes a
    pose and never resets the tracker, whatever clouds arrive. *)
Theorem main_delta_pose_flag (argv : list string) (clouds : list sensor_msgs.PointCloud2) :
  let startup := fst (main argv clouds) in
  (scanArgs (drop 1 argv) false = true <-> In "--senddeltapose" (drop 1 argv))
  /\ (List.filter is_AdvertisePose startup <> [] <-> In "--senddeltapose" (drop 1 argv))
  /\ (~ In "--senddeltapose" (drop 1 argv) ->
      Forall (fun effects =>
                occurrences is_PosePublish effects = 0%nat
                /\ occurrences is_IcpResetTracking effects = 0%nat)
             (snd (main argv clouds))).
Proof.
  intros startup. subst startup.
  assert (Hflag : scanArgs (drop 1 argv) false = true <-> In "--senddeltapose" (drop 1 argv)).
  { rewrite scanArgs_spec. cbn [orb]. rewrite List.existsb_exists. split.
    - intros [arg [Hin Heq]]. apply String.eqb_eq in Heq. subst arg. assumption.
    - intros Hin. exists "--senddeltapose". split; [assumption | apply String.eqb_refl]. }
  split; [assumption|].
  unfold main.
  destruct (getParam param_get_string PString "statFilePrefix" "") as [prefix e0] eqn:He0.
  pose proof (constructor_sendDelta prefix (scanArgs (drop 1 argv) false)) as [Hobj Hadv].
  destruct (CloudMatcher_ctor prefix (scanArgs (drop 1 argv) false)) as [matcher e1].
  cbn [fst snd] in *. split.
  - rewrite <- Hflag.
    assert (He : List.filter is_AdvertisePose e0 = [])
      by (unfold getParam in He0; destruct (param_get_string _); injection He0 as <- <-;
          reflexivity).
    cbn [app List.filter is_AdvertisePose]. rewrite List.filter_app, He. cbn [app].
    destruct (scanArgs (drop 1 argv) false).
    + destruct Hadv as [topic ->]. split; [reflexivity | discriminate].
    + rewrite Hadv. split; [contradiction | discriminate].
  - intros Hno. apply run_quiet_without_delta. rewrite Hobj.
    destruct (scanArgs (drop 1 argv) false); [|reflexivity].
    exfalso. apply Hno, Hflag. reflexivity.
Qed.

End StartupFacts.

(** ** Further scenarios *)

Lemma delta_pose_per_cloud_witness :
  pastWarmUp Sample.node_fresh
  /\ sendDeltaPoseMessage Sample.node_fresh = true
  /\ exists pose,
       List.filter is_PosePublish (snd (gotCloud Sample.node_fresh (Sample.dropouts Sample.t1)))
       = [PosePublish pose]
       /\ ros.stamp (geometry_msgs.pwc_header pose) = Sample.t1.
Proof.
  assert (Hpast : pastWarmUp Sample.node_fresh) by reflexivity.
  assert (Hsend : sendDeltaPoseMessage Sample.node_fresh = true) by reflexivity.
  destruct (delta_pose_per_cloud Sample.node_fresh (Sample.dropouts Sample.t1) Hpast Hsend)
    as (pose & Hone & Hstamp & _).
  split; [exact Hpast | split; [exact Hsend|]].
  exists pose. split; [exact Hone | exact Hstamp].
Defined.


Lemma no_pose_outside_delta_mode_witness :
  sendDeltaPoseMessage (Sample.node_failing false) = false
  /\ occurrences is_IcpResetTracking
       (List.concat (snd (run (Sample.node_failing false)
                            [Sample.cloud Sample.t1; Sample.dropouts Sample.t2])))
     = 0%nat.
Proof.
  assert (Hsend : sendDeltaPoseMessage (Sample.node_failing false) = false) by reflexivity.
  destruct (no_pose_outside_delta_mode [Sample.cloud Sample.t1; Sample.dropouts Sample.t2]
              (Sample.node_failing false) Hsend) as (_ & Hreset).
  split; [exact Hsend | exact Hreset].
Defined.

Lemma broadcasts_are_well_labelled_witness :
  In (SendTransform
        (stampedTransform (Sample.node_failing true) Sample.t1 (tfTransform ZRigid.yaw90)))
     (List.concat (snd (run (Sample.node_failing true)
                          [Sample.dropouts Sample.t0; Sample.cloud Sample.t1])))
  /\ In Sample.t1
        (List.map sensor_msgs.stamp [Sample.dropouts Sample.t0; Sample.cloud Sample.t1]).
Proof.
  assert (Hin : In (SendTransform
                      (stampedTransform (Sample.node_failing true) Sample.t1
                         (tfTransform ZRigid.yaw90)))
                   (List.concat (snd (run (Sample.node_failing true)
                                        [Sample.dropouts Sample.t0; Sample.cloud Sample.t1]))))
    by (vm_compute; repeat (first [left; reflexivity | right])).
  destruct (broadcasts_are_well_labelled _ _ _ Hin) as (_ & _ & Hstamp).
  split; [exact Hin | exact Hstamp].
Defined.

Lemma effects_in_order_witness :
  pastWarmUp (Sample.node_failing true)
  /\ countGood (sensor_msgs.points (Sample.cloud Sample.t1)) 0 <> 0%nat
  /\ exists logs delta keyframe t,
       snd (gotCloud (Sample.node_failing true) (Sample.cloud Sample.t1))
       = logs ++ [IcpCall (buildDP (sensor_msgs.points (Sample.cloud Sample.t1)))]
         ++ delta ++ keyframe ++ [SendTransform t]
       /\ forallb is_Log logs = true.
Proof.
  assert (Hpast : pastWarmUp (Sample.node_failing true)) by reflexivity.
  assert (Hgood : countGood (sensor_msgs.points (Sample.cloud Sample.t1)) 0 <> 0%nat)
    by (vm_compute; discriminate).
  destruct (effects_in_order (Sample.node_failing true) (Sample.cloud Sample.t1) Hpast Hgood)
    as (logs & delta & keyframe & t & Heq & Hlogs & _).
  split; [exact Hpast | split; [exact Hgood|]].
  exists logs, delta, keyframe, t. split; [exact Heq | exact Hlogs].
Defined.

Lemma constructor_defaults_witness :
  (forall key, param_get_string (ParamServer := SampleStartup.bare) key = None)
  /\ (forall key, param_get_int (ParamServer := SampleStartup.bare) key = None)
  /\ List.filter is_AdvertisePose
       (snd (CloudMatcher_ctor (ICP := Sample.ICP) (Params := SampleStartup.bare) "" true))
     = [AdvertisePose "/openni_delta_pose" 3].
Proof.
  assert (Hs : forall key, param_get_string (ParamServer := SampleStartup.bare) key = None)
    by (intros key; reflexivity).
  assert (Hi : forall key, param_get_int (ParamServer := SampleStartup.bare) key = None)
    by (intros key; reflexivity).
  destruct (constructor_defaults (ICP := Sample.ICP) (Params := SampleStartup.bare)
              "" true Hs Hi) as (_ & _ & _ & _ & _ & Hpose & _).
  split; [exact Hs | split; [exact Hi | exact Hpose]].
Defined.

Lemma negative_drop_count_witness :
  param_get_int (ParamServer := SampleStartup.tuned) "~startupDropCount" = Some (-3)
  /\ startupDropCount
       (fst (CloudMatcher_ctor (ICP := Sample.ICP) (Params := SampleStartup.tuned) "" true))
     = 4294967293
  /\ snd (run (fst (CloudMatcher_ctor (ICP := Sample.ICP) (Params := SampleStartup.tuned)
                      "" true))
            [Sample.cloud Sample.t0; Sample.cloud Sample.t1])
     = [[]; []].
Proof.
  assert (Hget : param_get_int (ParamServer := SampleStartup.tuned) "~startupDropCount"
                 = Some (-3)) by reflexivity.
  assert (Hv : - 2 ^ 31 <= -3 < 0) by lia.
  assert (Hlen : Z.of_nat (length [Sample.cloud Sample.t0; Sample.cloud Sample.t1]) < 2 ^ 31)
    by (simpl; lia).
  destruct (negative_drop_count_mutes_the_node (ICP := Sample.ICP)
              (Params := SampleStartup.tuned) "" true (-3)
              [Sample.cloud Sample.t0; Sample.cloud Sample.t1] Hget Hv Hlen)
    as (Hbound & Hquiet & _).
  split; [exact Hget | split; [exact Hbound | exact Hquiet]].
Defined.

Lemma main_delta_pose_flag_witness :
  ~ In "--senddeltapose" (drop 1 ["--senddeltapose"; "-v"])
  /\ Forall (fun effects =>
               occurrences is_PosePublish effects = 0%nat
               /\ occurrences is_IcpResetTracking effects = 0%nat)
            (snd (main (ICP := Sample.ICP) (Params := SampleStartup.bare)
                    ["--senddeltapose"; "-v"]
                    [Sample.dropouts Sample.t0; Sample.cloud Sample.t1])).
Proof.
  assert (Hno : ~ In "--senddeltapose" (drop 1 ["--senddeltapose"; "-v"]))
    by (intros [H|[]]; discriminate H).
  destruct (main_delta_pose_flag (ICP := Sample.ICP) (Params := SampleStartup.bare)
              ["--senddeltapose"; "-v"]
              [Sample.dropouts Sample.t0; Sample.cloud Sample.t1]) as (_ & _ & Hquiet).
  split; [exact Hno | exact (Hquiet Hno)].
Defined.

Lemma partial_image_report_witness :
  In (Log (PartialImage (S754_finite false 4691249611844268 (-47)) 2))
     (snd (gotCloud Sample.node_converging (Sample.cloud Sample.t1)))
  /\ pastWarmUp Sample.node_converging
  /\ (1 <= 2 <= length (sensor_msgs.points (Sample.cloud Sample.t1)))%nat.
Proof.
  assert (Hin : In (Log (PartialImage (S754_finite false 4691249611844268 (-47)) 2))
                   (snd (gotCloud Sample.node_converging (Sample.cloud Sample.t1))))
    by (right; left; reflexivity).
  destruct (partial_image_report Sample.node_converging (Sample.cloud Sample.t1) _ _ Hin)
    as (Hpast & _ & Hrange & _).
  split; [exact Hin | split; [exact Hpast | exact Hrange]].
Defined.
